(** * mqtt_telegram_bridge: the MQTT status bridge and its Telegram delivery

    A shallow embedding of [src/mqtt_telegram_bridge.py].  The handlers are
    effectful Python; here an effect is an [event] appended to the list a
    computation returns, an exception is the [Raise] result, and the two
    things the handlers cannot decide by themselves (what [json.loads] makes
    of a text: a value or any exception; what [requests.post] answers) are
    variables of a section, so that every theorem holds for all of them. *)

From Stdlib Require Import ZArith NArith List String Ascii Bool Lia.
From Stdlib.Strings Require Import Byte.
Import ListNotations.
Local Open Scope string_scope.
#[local] Set Warnings "-register-all".

(** ** Python values *)

(** What [json.loads] returns.  A [float] keeps its lexeme: the script never
    computes with one.  A [dict] is the list of its items, keys distinct. *)
Inductive json : Type :=
| JNull
| JBool (b : bool)
| JInt (z : Z)
| JFloat (lexeme : string)
| JString (s : string)
| JArray (items : list json)
| JObject (items : list (string * json)).

(** The exceptions the script raises or handles.  [RequestException] stands
    for [requests.exceptions.RequestException] and its subclasses (named by
    [cls]), [OtherException] for any other subclass of [Exception], and
    [KeyboardInterrupt] is the one [BaseException] the script names. *)
Inductive exn : Type :=
| UnicodeDecodeError
| UnicodeEncodeError
| JSONDecodeError
| AttributeError
| ValueError
| RequestException (cls : string)
| OtherException (cls : string)
| KeyboardInterrupt.

(** [isinstance(e, requests.exceptions.RequestException)] *)
Definition is_RequestException (e : exn) : bool :=
  match e with RequestException _ => true | _ => false end.

(** [isinstance(e, json.JSONDecodeError)] *)
Definition is_JSONDecodeError (e : exn) : bool :=
  match e with JSONDecodeError => true | _ => false end.

(** [isinstance(e, Exception)] *)
Definition is_Exception (e : exn) : bool :=
  match e with KeyboardInterrupt => false | _ => true end.

(** [d.get(key)] on the items of a dict. *)
Fixpoint dict_lookup (items : list (string * json)) (key : string) : option json :=
  match items with
  | [] => None
  | (k, v) :: rest => if k =? key then Some v else dict_lookup rest key
  end.

(** [d.get(key, default)] *)
Definition dict_get (items : list (string * json)) (key : string) (default : json) : json :=
  match dict_lookup items key with
  | Some v => v
  | None => default
  end.

(** [d[key] = v]: the value of an existing key is replaced in place. *)
Fixpoint dict_set (items : list (string * json)) (key : string) (v : json) : list (string * json) :=
  match items with
  | [] => [(key, v)]
  | (k, w) :: rest => if k =? key then (k, v) :: rest else (k, w) :: dict_set rest key v
  end.

(** [v == s] for a str literal [s]: only a str with the same characters is
    equal to it. *)
Definition py_eq_str (v : json) (s : string) : bool :=
  match v with
  | JString t => t =? s
  | _ => false
  end.

(** ** Text

    A Python str is kept as the bytes of its UTF-8 encoding. *)

Definition byte_in (lo hi : N) (b : byte) : bool :=
  ((lo <=? Byte.to_N b) && (Byte.to_N b <=? hi))%N.

(** A continuation byte, [80..BF]. *)
Definition utf8_tail (b : byte) : bool := byte_in 0x80 0xBF b.

(** The well-formed UTF-8 byte sequences (no overlong form, no surrogate,
    nothing above U+10FFFF), which is what the strict codec accepts. *)
Fixpoint utf8_valid (bs : list byte) : bool :=
  match bs with
  | [] => true
  | b0 :: r0 =>
    if byte_in 0x00 0x7F b0 then utf8_valid r0 else
    match r0 with
    | [] => false
    | b1 :: r1 =>
      if byte_in 0xC2 0xDF b0 && utf8_tail b1 then utf8_valid r1 else
      match r1 with
      | [] => false
      | b2 :: r2 =>
        if ((byte_in 0xE0 0xE0 b0 && byte_in 0xA0 0xBF b1)
            || (byte_in 0xE1 0xEC b0 && utf8_tail b1)
            || (byte_in 0xED 0xED b0 && byte_in 0x80 0x9F b1)
            || (byte_in 0xEE 0xEF b0 && utf8_tail b1))
           && utf8_tail b2
        then utf8_valid r2 else
        match r2 with
        | [] => false
        | b3 :: r3 =>
          if ((byte_in 0xF0 0xF0 b0 && byte_in 0x90 0xBF b1)
              || (byte_in 0xF1 0xF3 b0 && utf8_tail b1)
              || (byte_in 0xF4 0xF4 b0 && byte_in 0x80 0x8F b1))
             && utf8_tail b2 && utf8_tail b3
          then utf8_valid r3 else false
        end
      end
    end
  end.

(** [bs.decode('utf-8')]: [None] is [UnicodeDecodeError]. *)
Definition decode_utf8 (bs : list byte) : option string :=
  if utf8_valid bs then Some (string_of_list_byte bs) else None.

(** The line feed an f-string writes as a backslash and [n]. *)
Definition LF : string := String (ascii_of_nat 10) EmptyString.

(** An f-string before it is rendered: its literal parts and the values
    interpolated between them, in order. *)
Inductive piece : Type :=
| T (literal : string)
| V (value : json)
| X (error : exn).

Definition fstring : Type := list piece.

Fixpoint decimal_digits (fuel : nat) (n : N) (acc : string) : string :=
  match fuel with
  | O => acc
  | S fuel' =>
    let acc' := String (ascii_of_N (48 + n mod 10)) acc in
    if (n <? 10)%N then acc' else decimal_digits fuel' (n / 10)%N acc'
  end.

(** [str(z)] for an int. *)
Definition str_of_int (z : Z) : string :=
  let n := Z.abs_N z in
  let digits := decimal_digits (S (N.to_nat (N.log2 n))) n "" in
  if (z <? 0)%Z then "-" ++ digits else digits.

(** [str(v)] where the model has it: a str is itself, and [None], the
    booleans and the ints print as Python prints them.  The text of a float,
    a list or a dict is not modelled. *)
Definition py_str (v : json) : option string :=
  match v with
  | JString s => Some s
  | JNull => Some "None"
  | JBool true => Some "True"
  | JBool false => Some "False"
  | JInt z => Some (str_of_int z)
  | JFloat _ | JArray _ | JObject _ => None
  end.

(** The str an f-string evaluates to, where [py_str] has every value in it
    (the text of an exception is not modelled). *)
Fixpoint render (f : fstring) : option string :=
  match f with
  | [] => Some ""
  | T s :: rest => option_map (append s) (render rest)
  | V v :: rest =>
    match py_str v, render rest with
    | Some s, Some r => Some (s ++ r)
    | _, _ => None
    end
  | X _ :: _ => None
  end.

(** ** The clock *)

Record datetime : Type := {
  year : nat; month : nat; day : nat;
  hour : nat; minute : nat; second : nat
}.

Definition digit (n : nat) : ascii := ascii_of_nat (48 + n mod 10).

Definition pad2 (n : nat) : string :=
  String (digit (n / 10)) (String (digit n) EmptyString).

Definition pad4 (n : nat) : string :=
  String (digit (n / 1000)) (String (digit (n / 100)) (pad2 n)).

(** [now.strftime('%Y-%m-%d %H:%M:%S')], for a year of four digits. *)
Definition strftime (now : datetime) : string :=
  pad4 (year now) ++ "-" ++ pad2 (month now) ++ "-" ++ pad2 (day now) ++ " "
  ++ pad2 (hour now) ++ ":" ++ pad2 (minute now) ++ ":" ++ pad2 (second now).

(** ** Configuration (lines 47-61) *)

Record config : Type := {
  MQTT_BROKER : string;
  MQTT_PORT : Z;
  MQTT_TOPIC_STATUS : string;
  MQTT_TOPIC_ALIVE : string;
  TELEGRAM_BOT_TOKEN : option string;
  TELEGRAM_CHAT_ID : option string;
  MONITOR_ALIVE : bool;
  NOTIFY_ONLINE : bool
}.

(** [os.getenv(name, default)] *)
Definition getenv_default (environ : string -> option string) (name default : string) : string :=
  match environ name with
  | Some v => v
  | None => default
  end.

(** An optional str as a Python value: [None] when it is unset. *)
Definition opt_str (o : option string) : json :=
  match o with
  | Some s => JString s
  | None => JNull
  end.

(** ** Effects *)

(** The JSON body of a [sendMessage] request (lines 80-86); [parse_mode] is
    [None] when the dict has no such key. *)
Record tg_payload : Type := {
  chat_id : json;
  text : fstring;
  parse_mode : option string
}.

(** What a run of the script does to the outside, in order. *)
Inductive event : Type :=
| Printed (line : fstring)
| Posted (url : fstring) (body : tg_payload)
| Connected (host : string) (port : Z)
| Looped
| Disconnected.

(** How a call ends. *)
Inductive result (A : Type) : Type :=
| Return (a : A)
| Raise (e : exn).

Arguments Return {A} a.
Arguments Raise {A} e.

(** The requests sent, [requests.post(url, json=body, timeout=10)] each. *)
Fixpoint posts (evs : list event) : list (fstring * tg_payload) :=
  match evs with
  | [] => []
  | Posted url body :: rest => (url, body) :: posts rest
  | _ :: rest => posts rest
  end.

(** A computation: given how many requests were sent before it starts, the
    events it adds and how it ends. *)
Definition M (A : Type) : Type := nat -> list event * result A.

Definition ret {A : Type} (a : A) : M A := fun _ => ([], Return a).

Definition raise {A : Type} (e : exn) : M A := fun _ => ([], Raise e).

Definition emit (ev : event) : M unit := fun _ => ([ev], Return tt).

Definition bind {A B : Type} (m : M A) (k : A -> M B) : M B :=
  fun n =>
    let (evs, r) := m n in
    match r with
    | Return a =>
      let (evs', r') := k a (List.length (posts evs) + n) in ((evs ++ evs')%list, r')
    | Raise e => (evs, Raise e)
    end.

(** [try: m  except ...: h]: the handler has a body for the exceptions its
    clauses match and lets the others through. *)
Definition try_except {A : Type} (m : M A) (h : exn -> option (M A)) : M A :=
  fun n =>
    let (evs, r) := m n in
    match r with
    | Return a => (evs, Return a)
    | Raise e =>
      match h e with
      | Some handler =>
        let (evs', r') := handler (List.length (posts evs) + n) in ((evs ++ evs')%list, r')
      | None => (evs, Raise e)
      end
    end.

Notation "x <- m ;; k" := (bind m (fun x => k))
  (at level 61, m at next level, right associativity).
Notation "m ;; k" := (bind m (fun _ => k))
  (at level 61, right associativity).

(** [s.encode('utf-8')] succeeds: the str holds no lone surrogate.  A text
    decoded from UTF-8 is encodable; a str that [json.loads] made of an
    escape such as a backslash, [u] and [d800] is not. *)
Definition encodable (s : string) : bool := utf8_valid (list_byte_of_string s).

(** The text of a line can be written to the terminal.  Only a str taken
    from the JSON document can stand in the way: the text of any other value
    is ASCII ([str] of a number, [None] or a boolean, and the [repr] that a
    list or a dict prints its strs with). *)
Definition printable (line : fstring) : bool :=
  forallb (fun p => match p with
                    | V (JString s) => encodable s
                    | _ => true
                    end) line.

(** [print(line)] for a line made of the script's own literals, the
    settings, the topic and the decoded payload, and the text of an
    exception: text that came in as UTF-8 and goes out as UTF-8. *)
Definition print (line : fstring) : M unit := emit (Printed line).

(** [print(line)] for a line that interpolates values read from the JSON
    document: it raises [UnicodeEncodeError], and prints nothing, when the
    line is not [printable]. *)
Definition print_data (line : fstring) : M unit :=
  if printable line then emit (Printed line) else raise UnicodeEncodeError.

(** [response.raise_for_status()]: an [HTTPError] for a 4xx or 5xx status. *)
Definition raise_for_status (status_code : Z) : M unit :=
  if ((400 <=? status_code) && (status_code <? 600))%Z
  then raise (RequestException "HTTPError")
  else ret tt.

(** [if parse_mode:] for a str or [None]. *)
Definition truthy (parse_mode : option string) : bool :=
  match parse_mode with
  | Some s => negb (s =? "")
  | None => false
  end.

(** [payload.pop("parse_mode", None)] *)
Definition pop_parse_mode (body : tg_payload) : tg_payload :=
  {| chat_id := chat_id body; text := text body; parse_mode := None |}.

(** What [requests.post] does with one request. *)
Inductive post_result : Type :=
| Responded (status_code : Z)
| Failed (e : exn).

(** The exception one attempt ends with, if any: what [requests.post]
    raised, or the [HTTPError] of [raise_for_status]. *)
Definition attempt_failure (r : post_result) : option exn :=
  match r with
  | Responded status_code =>
    if ((400 <=? status_code) && (status_code <? 600))%Z
    then Some (RequestException "HTTPError")
    else None
  | Failed e => Some e
  end.

(** The texts of the requests sent. *)
Definition sent_texts (evs : list event) : list fstring :=
  map (fun p => text (snd p)) (posts evs).

(** A message went out in one request, or in two with the same text. *)
Definition delivered (message : fstring) (evs : list event) : Prop :=
  sent_texts evs = [message] \/ sent_texts evs = [message; message].


(** An event that only writes to the log. *)
Definition is_log (ev : event) : Prop := exists line, ev = Printed line.

(** An inbound message as paho hands it to [on_message]. *)
Record mqtt_message : Type := {
  topic : string;
  payload : list byte
}.

(** The arms of the [if]/[elif] chain on [status] (lines 230-297). *)
Inductive status_arm : Type :=
| DeviceOffline
| DeviceOnline
| MotionConfirmed
| MotionCleared
| MotionDetectedInitial
| UnknownStatus.


(** The conditions of that chain, in the order the script tests them. *)
Definition status_branch (cfg : config) (status : json) : status_arm :=
  if py_eq_str status "offline" then DeviceOffline
  else if py_eq_str status "online" && NOTIFY_ONLINE cfg then DeviceOnline
  else if py_eq_str status "Motion detection confirmed" then MotionConfirmed
  else if py_eq_str status "No motion" then MotionCleared
  else if py_eq_str status "Motion detected" then MotionDetectedInitial
  else UnknownStatus.

(** ** Message formats *)

(** [format_offline_message] (lines 107-126) *)
Definition format_offline_message (device_id reason timestamp : json) : fstring :=
  [ T ("🔴 <b>Device Offline Alert</b>" ++ LF ++ LF);
    T "<b>Device:</b> <code>"; V device_id; T ("</code>" ++ LF);
    T ("<b>Status:</b> Offline" ++ LF);
    T "<b>Reason:</b> "; V reason; T LF;
    T "<b>Time:</b> "; V timestamp; T (LF ++ LF);
    T "⚠️ The device has lost connection unexpectedly." ].

(** [format_online_message] (lines 129-146) *)
Definition format_online_message (device_id timestamp : json) : fstring :=
  [ T ("🟢 <b>Device Online</b>" ++ LF ++ LF);
    T "<b>Device:</b> <code>"; V device_id; T ("</code>" ++ LF);
    T ("<b>Status:</b> Online" ++ LF);
    T "<b>Time:</b> "; V timestamp; T (LF ++ LF);
    T "✅ The device has reconnected successfully." ].

(** [uptime_str] of [format_alive_message] (lines 161-164), for an int. *)
Definition uptime_str (uptime_sec : Z) : fstring :=
  let hours := (uptime_sec / 3600)%Z in
  let minutes := ((uptime_sec mod 3600) / 60)%Z in
  let seconds := (uptime_sec mod 60)%Z in
  [V (JInt hours); T "h "; V (JInt minutes); T "m "; V (JInt seconds); T "s"].

(** [format_alive_message] (lines 149-171); no call of it is left in the
    script. *)
Definition format_alive_message (device_id rtc_time : json) (uptime_sec : Z) : fstring :=
  ([ T ("💚 <b>Device Heartbeat</b>" ++ LF ++ LF);
     T "<b>Device:</b> <code>"; V device_id; T ("</code>" ++ LF);
     T "<b>RTC Time:</b> "; V rtc_time; T LF;
     T "<b>Uptime:</b> " ] ++ uptime_str uptime_sec ++ [ T LF ])%list.

(** The message of the confirmed-motion arm (lines 256-260). *)
Definition motion_confirmed_message (device_id device_timestamp : json) : fstring :=
  [ T ("🚨 <b>Motion Detection Alert</b>" ++ LF ++ LF);
    T "<b>Device:</b> <code>"; V device_id; T ("</code>" ++ LF);
    T ("<b>Status:</b> Motion confirmed" ++ LF);
    T "<b>Time:</b> "; V device_timestamp; T (LF ++ LF);
    T "⚠️ Unauthorized motion detected in monitored area!" ].

(** The message of the initial-motion arm (lines 283-287). *)
Definition motion_detected_message (device_id device_timestamp : json) : fstring :=
  [ T ("🟡 <b>Motion Detected</b>" ++ LF ++ LF);
    T "<b>Device:</b> <code>"; V device_id; T ("</code>" ++ LF);
    T ("<b>Status:</b> Motion detected (awaiting confirmation)" ++ LF);
    T "<b>Time:</b> "; V device_timestamp; T (LF ++ LF);
    T "Monitoring for continued movement..." ].

(** The line each arm prints first (lines 232, 242, 252, 268, 279, 296). *)
Definition arm_headline (arm : status_arm) (device_id status reason : json) : fstring :=
  match arm with
  | DeviceOffline =>
    [T "🔴 Device offline detected: "; V device_id; T " - Reason: "; V reason]
  | DeviceOnline => [T "🟢 Device online detected: "; V device_id]
  | MotionConfirmed => [T "🚨 Motion detection confirmed: "; V device_id]
  | MotionCleared => [T "ℹ️ No motion detected: "; V device_id]
  | MotionDetectedInitial => [T "🟡 Initial motion detection: "; V device_id]
  | UnknownStatus =>
    [T "⚠️ Unknown status received: '"; V status; T "' from "; V device_id]
  end.

(** The two lines [on_message] prints first (lines 219-220). *)
Definition received_lines (topic payload : string) : list event :=
  [ Printed [T (LF ++ "📩 Message received on '"); V (JString topic); T "':"];
    Printed [T "   Payload: "; V (JString payload)] ].

(** The two lines of the catch-all arm (lines 296-297). *)
Definition unknown_status_lines (status device_id : json) (payload : string) : list event :=
  [ Printed [T "⚠️ Unknown status received: '"; V status; T "' from "; V device_id];
    Printed [T "   Full payload: "; V (JString payload)] ].

(** [data.get(key, default)]: only a dict has the method. *)
Definition py_get (data : json) (key : string) (default : json) : M json :=
  match data with
  | JObject items => ret (dict_get items key default)
  | _ => raise AttributeError
  end.

(** [msg.payload.decode('utf-8')] *)
Definition bytes_decode (bs : list byte) : M string :=
  match decode_utf8 bs with
  | Some s => ret s
  | None => raise UnicodeDecodeError
  end.

(** [c * 60] for a str of one character. *)
Definition sixty (c : string) : string := String.concat "" (repeat c 60).

(** The module-level settings (lines 50-61), read from the environment when
    the script starts; [int] fails on a port that is no number. *)
Definition module_config (py_int : string -> option Z) (environ : string -> option string)
  : result config :=
  match py_int (getenv_default environ "MQTT_PORT" "1883") with
  | Some port =>
    Return {| MQTT_BROKER := getenv_default environ "MQTT_BROKER" "broker.hivemq.com";
              MQTT_PORT := port;
              MQTT_TOPIC_STATUS :=
                getenv_default environ "MQTT_TOPIC_STATUS" "devices/IoT_device_365/status";
              MQTT_TOPIC_ALIVE :=
                getenv_default environ "MQTT_TOPIC_ALIVE" "devices/IoT_device_365/alive";
              TELEGRAM_BOT_TOKEN := environ "TELEGRAM_BOT_TOKEN";
              TELEGRAM_CHAT_ID := environ "TELEGRAM_CHAT_ID";
              MONITOR_ALIVE := true;
              NOTIFY_ONLINE := true |}
  | None => Raise ValueError
  end.

Section Bridge.

(** [json.loads(text)]: the value, or the exception it raises
    ([json.JSONDecodeError] for a text that is no JSON; [RecursionError] or
    [ValueError], as an [OtherException], for one past the decoder's limits). *)
Variable json_loads : string -> result json.

(** [requests.post(url, json=body, timeout=10)], as the request number [n]
    of the run, counted from 0. *)
Variable requests_post : nat -> fstring -> tg_payload -> post_result.

Definition loads (s : string) : M json := fun _ => ([], json_loads s).

Definition post (url : fstring) (body : tg_payload) : M Z :=
  fun n =>
    ([Posted url body],
     match requests_post n url body with
     | Responded status_code => Return status_code
     | Failed e => Raise e
     end).

(** ** [send_telegram_message] (lines 67-104) *)

(** The body of each [try]: post, then [raise_for_status]. *)
Definition attempt (url : fstring) (body : tg_payload) : M unit :=
  status_code <- post url body ;;
  raise_for_status status_code.

Definition request_url (cfg : config) : fstring :=
  [T "https://api.telegram.org/bot"; V (opt_str (TELEGRAM_BOT_TOKEN cfg)); T "/sendMessage"].

Definition request_body (cfg : config) (message : fstring) (mode : option string) : tg_payload :=
  {| chat_id := opt_str (TELEGRAM_CHAT_ID cfg);
     text := message;
     parse_mode := if truthy mode then mode else None |}.

Definition send_telegram_message (cfg : config) (message : fstring) (mode : option string)
  : M bool :=
  let url := request_url cfg in
  let body := request_body cfg message mode in
  try_except
    (attempt url body ;; ret true)
    (fun e =>
       if is_RequestException e then Some (
         print [T "Failed to send Telegram message: "; X e] ;;
         retried <-
           (if truthy mode then
              print [T "Retrying without formatting..."] ;;
              let body := pop_parse_mode body in
              try_except
                (attempt url body ;; ret true)
                (fun _ => Some (ret false))
            else ret false) ;;
         ret retried)
       else None).

(** ** [on_message] (lines 211-315) *)

(** The two lines after a call of [send_telegram_message]. *)
Definition report (sent : bool) (ok : string) : M unit :=
  if sent then print [T ok] else print [T "❌ Failed to send Telegram notification"].

(** The block for the status topic (lines 227-297).  Every line it prints
    but the last one of the catch-all (the decoded payload) shows values of
    the document. *)
Definition handle_status (cfg : config) (payload timestamp : string) (data : json) : M unit :=
  device_id <- py_get data "device_id" (JString "Unknown") ;;
  status <- py_get data "status" (JString "Unknown") ;;
  match status_branch cfg status with
  | DeviceOffline =>
    reason <- py_get data "reason" (JString "unknown") ;;
    print_data [T "🔴 Device offline detected: "; V device_id; T " - Reason: "; V reason] ;;
    let message := format_offline_message device_id reason (JString timestamp) in
    sent <- send_telegram_message cfg message (Some "HTML") ;;
    report sent "✅ Offline notification sent to Telegram"
  | DeviceOnline =>
    print_data [T "🟢 Device online detected: "; V device_id] ;;
    let message := format_online_message device_id (JString timestamp) in
    sent <- send_telegram_message cfg message (Some "HTML") ;;
    report sent "✅ Online notification sent to Telegram"
  | MotionConfirmed =>
    print_data [T "🚨 Motion detection confirmed: "; V device_id] ;;
    device_timestamp <- py_get data "timestamp" (JString timestamp) ;;
    let message := motion_confirmed_message device_id device_timestamp in
    sent <- send_telegram_message cfg message (Some "HTML") ;;
    report sent "✅ Motion alert sent to Telegram"
  | MotionCleared =>
    print_data [T "ℹ️ No motion detected: "; V device_id]
  | MotionDetectedInitial =>
    print_data [T "🟡 Initial motion detection: "; V device_id] ;;
    device_timestamp <- py_get data "timestamp" (JString timestamp) ;;
    let message := motion_detected_message device_id device_timestamp in
    sent <- send_telegram_message cfg message (Some "HTML") ;;
    report sent "✅ Initial motion alert sent to Telegram"
  | UnknownStatus =>
    print_data [T "⚠️ Unknown status received: '"; V status; T "' from "; V device_id] ;;
    print [T "   Full payload: "; V (JString payload)]
  end.

(** The block for the alive topic (lines 301-305); the notification that
    follows it in the script is commented out. *)
Definition handle_alive (data : json) : M unit :=
  device_id <- py_get data "device_id" (JString "Unknown") ;;
  rtc_time <- py_get data "rtc_time" (JString "Unknown") ;;
  uptime_sec <- py_get data "uptime_sec" (JInt 0) ;;
  print_data [T "💚 Device heartbeat: "; V device_id; T " - Uptime: "; V uptime_sec; T "s"].

(** The body of the [try] (lines 223-310). *)
Definition process (cfg : config) (topic payload timestamp : string) : M unit :=
  data <- loads payload ;;
  if topic =? MQTT_TOPIC_STATUS cfg then handle_status cfg payload timestamp data
  else if (topic =? MQTT_TOPIC_ALIVE cfg) && MONITOR_ALIVE cfg then handle_alive data
  else ret tt.

(** The two [except] clauses (lines 312-315). *)
Definition on_error (payload : string) (e : exn) : option (M unit) :=
  if is_JSONDecodeError e then
    Some (print [T "⚠️ Failed to parse JSON payload: "; V (JString payload)])
  else if is_Exception e then
    Some (print [T "❌ Error processing message: "; X e])
  else None.

Definition on_message (cfg : config) (now : datetime) (msg : mqtt_message) : M unit :=
  let topic := topic msg in
  payload <- bytes_decode (payload msg) ;;
  let timestamp := strftime now in
  print [T (LF ++ "📩 Message received on '"); V (JString topic); T "':"] ;;
  print [T "   Payload: "; V (JString payload)] ;;
  try_except (process cfg topic payload timestamp) (on_error payload).

(** ** [main] (lines 322-377) *)

(** [client.connect(MQTT_BROKER, MQTT_PORT, keepalive=60)], which ends as
    [connect_result] says. *)
Definition client_connect (cfg : config) (connect_result : option exn) : M unit :=
  fun _ =>
    ([Connected (MQTT_BROKER cfg) (MQTT_PORT cfg)],
     match connect_result with
     | None => Return tt
     | Some e => Raise e
     end).

(** [client.loop_forever()], which ends as [loop_result] says. *)
Definition client_loop_forever (loop_result : option exn) : M unit :=
  fun _ =>
    ([Looped],
     match loop_result with
     | None => Return tt
     | Some e => Raise e
     end).

Definition main (cfg : config) (connect_result loop_result : option exn) (now : datetime)
  : M unit :=
  print [T (sixty "=")] ;;
  print [T "MQTT Last Will and Testament (LWT) to Telegram Monitor"] ;;
  print [T (sixty "=")] ;;
  if py_eq_str (opt_str (TELEGRAM_BOT_TOKEN cfg)) "YOUR_BOT_TOKEN_HERE" then
    print [T "❌ ERROR: Please configure TELEGRAM_BOT_TOKEN"] ;;
    print [T "   Get your bot token from @BotFather on Telegram"]
  else if py_eq_str (opt_str (TELEGRAM_CHAT_ID cfg)) "YOUR_CHAT_ID_HERE" then
    print [T "❌ ERROR: Please configure TELEGRAM_CHAT_ID"] ;;
    print [T "   Visit: https://api.telegram.org/bot<TOKEN>/getUpdates"]
  else
    print [T (LF ++ "🔧 Initializing MQTT client...")] ;;
    print [T "🔌 Connecting to "; V (JString (MQTT_BROKER cfg)); T ":";
           V (JInt (MQTT_PORT cfg)); T "..."] ;;
    connected <-
      try_except
        (client_connect cfg connect_result ;; ret true)
        (fun e =>
           if is_Exception e then
             Some (print [T "❌ Connection failed: "; X e] ;; ret false)
           else None) ;;
    if connected then
      print [T (LF ++ "👀 Monitoring LWT messages... (Press Ctrl+C to exit)" ++ LF)] ;;
      print [T (sixty "-")] ;;
      try_except
        (client_loop_forever loop_result)
        (fun e =>
           match e with
           | KeyboardInterrupt => Some (
               print [T (LF ++ LF ++ "⏹️ Shutting down...")] ;;
               let shutdown_msg :=
                 [T ("🛑 <b>MQTT LWT Monitor Stopped</b>" ++ LF ++ LF);
                  T "Time: "; V (JString (strftime now))] in
               _ <- send_telegram_message cfg shutdown_msg (Some "HTML") ;;
               emit Disconnected ;;
               print [T "✅ Disconnected cleanly"])
           | _ => None
           end)
    else ret tt.

End Bridge.

(** ** [on_connect] (lines 178-198) *)

(** What the connection callback does: the lines it prints and the calls
    [client.subscribe(topic, qos=qos)] it makes, in order. *)
Inductive client_event : Type :=
| Logged (line : fstring)
| Subscribed (topic : string) (qos : Z).

(** [on_connect] for the result code [rc] of the connection, read as the
    number the script compares with 0. *)
Definition on_connect (cfg : config) (now : datetime) (rc : Z) : list client_event :=
  if (rc =? 0)%Z then
    ([ Logged [T "✅ Connected to MQTT broker: "; V (JString (MQTT_BROKER cfg)); T ":";
               V (JInt (MQTT_PORT cfg))];
       Subscribed (MQTT_TOPIC_STATUS cfg) 1;
       Logged [T "📡 Subscribed to status topic: "; V (JString (MQTT_TOPIC_STATUS cfg))] ]
     ++ (if MONITOR_ALIVE cfg then
           [ Subscribed (MQTT_TOPIC_ALIVE cfg) 1;
             Logged [T "📡 Subscribed to alive topic: "; V (JString (MQTT_TOPIC_ALIVE cfg))] ]
         else [])
     ++ [ Logged [T "✅ Monitor ready at "; V (JString (strftime now))] ])%list
  else [ Logged [T "❌ Connection failed with code "; V (JInt rc)] ].

(** The subscriptions made, each with its quality of service. *)
Fixpoint subscriptions (evs : list client_event) : list (string * Z) :=
  match evs with
  | [] => []
  | Subscribed tp qos :: rest => (tp, qos) :: subscriptions rest
  | Logged _ :: rest => subscriptions rest
  end.

(** ** The notifying arms *)

(** The message a notifying arm builds and the line it prints once the
    message is sent (lines 235-237, 245-247, 256-263, 283-290); the two other
    arms build none. *)
Definition arm_notification (arm : status_arm) (items : list (string * json))
  (timestamp : string) : option (fstring * string) :=
  let device_id := dict_get items "device_id" (JString "Unknown") in
  match arm with
  | DeviceOffline =>
    Some (format_offline_message device_id (dict_get items "reason" (JString "unknown"))
            (JString timestamp),
          "✅ Offline notification sent to Telegram")
  | DeviceOnline =>
    Some (format_online_message device_id (JString timestamp),
          "✅ Online notification sent to Telegram")
  | MotionConfirmed =>
    Some (motion_confirmed_message device_id (dict_get items "timestamp" (JString timestamp)),
          "✅ Motion alert sent to Telegram")
  | MotionDetectedInitial =>
    Some (motion_detected_message device_id (dict_get items "timestamp" (JString timestamp)),
          "✅ Initial motion alert sent to Telegram")
  | MotionCleared | UnknownStatus => None
  end.

(** The line a handler prints for an exception it catches (lines 313, 315). *)
Definition error_line (payload : string) (e : exn) : fstring :=
  if is_JSONDecodeError e
  then [T "⚠️ Failed to parse JSON payload: "; V (JString payload)]
  else [T "❌ Error processing message: "; X e].

(** The message [main] sends when it is interrupted (lines 372-373). *)
Definition shutdown_message (now : datetime) : fstring :=
  [T ("🛑 <b>MQTT LWT Monitor Stopped</b>" ++ LF ++ LF); T "Time: "; V (JString (strftime now))].

(** The lines [main] prints before it looks at the credentials (lines 326-328). *)
Definition banner : list event :=
  [ Printed [T (sixty "=")];
    Printed [T "MQTT Last Will and Testament (LWT) to Telegram Monitor"];
    Printed [T (sixty "=")] ].

(** The lines [main] prints before it connects (lines 342, 355). *)
Definition connecting_lines (cfg : config) : list event :=
  [ Printed [T (LF ++ "🔧 Initializing MQTT client...")];
    Printed [T "🔌 Connecting to "; V (JString (MQTT_BROKER cfg)); T ":";
             V (JInt (MQTT_PORT cfg)); T "..."] ].

(** The lines [main] prints before it starts the loop (lines 363-364). *)
Definition monitoring_lines : list event :=
  [ Printed [T (LF ++ "👀 Monitoring LWT messages... (Press Ctrl+C to exit)" ++ LF)];
    Printed [T (sixty "-")] ].

(** The settings with [NOTIFY_ONLINE] (line 61) set to [b], the rest kept. *)
Definition set_notify_online (cfg : config) (b : bool) : config :=
  {| MQTT_BROKER := MQTT_BROKER cfg;
     MQTT_PORT := MQTT_PORT cfg;
     MQTT_TOPIC_STATUS := MQTT_TOPIC_STATUS cfg;
     MQTT_TOPIC_ALIVE := MQTT_TOPIC_ALIVE cfg;
     TELEGRAM_BOT_TOKEN := TELEGRAM_BOT_TOKEN cfg;
     TELEGRAM_CHAT_ID := TELEGRAM_CHAT_ID cfg;
     MONITOR_ALIVE := MONITOR_ALIVE cfg;
     NOTIFY_ONLINE := b |}.

(** A byte below 128. *)
Definition is_ascii_byte (b : byte) : Prop := (Byte.to_N b < 128)%N.

(** ** A reader of JSON texts

    The decoder the examples run with: the grammar [json.loads] accepts
    (RFC 8259 with Python's [NaN], [Infinity] and [-Infinity]), read from the
    UTF-8 bytes of the text. *)

Local Open Scope char_scope.

Definition is_ws (c : ascii) : bool :=
  match c with
  | " " | "009" | "010" | "013" => true
  | _ => false
  end.

Fixpoint skip_ws (s : string) : string :=
  match s with
  | String c rest => if is_ws c then skip_ws rest else s
  | EmptyString => s
  end.

Definition is_digit (c : ascii) : bool :=
  ((48 <=? N_of_ascii c) && (N_of_ascii c <=? 57))%N.

(** The longest run of digits at the head of [s], and what follows it. *)
Fixpoint take_digits (s : string) : string * string :=
  match s with
  | String c rest =>
    if is_digit c then let (ds, tl) := take_digits rest in (String c ds, tl)
    else (EmptyString, s)
  | EmptyString => (EmptyString, s)
  end.

Fixpoint digits_value (ds : string) (acc : N) : N :=
  match ds with
  | String c rest => digits_value rest (10 * acc + (N_of_ascii c - 48))%N
  | EmptyString => acc
  end.

Fixpoint strip_prefix (p s : string) : option string :=
  match p, s with
  | EmptyString, _ => Some s
  | String a p', String b s' => if Ascii.eqb a b then strip_prefix p' s' else None
  | String _ _, EmptyString => None
  end.

(** The integer part: [0], or a digit from 1 to 9 and more digits. *)
Definition take_int (s : string) : option (string * string) :=
  match s with
  | String "0" rest => Some ("0"%string, rest)
  | String c _ => if is_digit c then Some (take_digits s) else None
  | EmptyString => None
  end.

(** The fraction, when a digit follows the point. *)
Definition take_frac (s : string) : string * string :=
  match s with
  | String "." rest =>
    match take_digits rest with
    | (EmptyString, _) => (EmptyString, s)
    | (ds, tl) => (String "." ds, tl)
    end
  | _ => (EmptyString, s)
  end.

(** The exponent, when a digit follows its sign. *)
Definition take_exp (s : string) : string * string :=
  match s with
  | String e rest =>
    if Ascii.eqb e "e" || Ascii.eqb e "E" then
      let (sign, after) :=
        match rest with
        | String "+" r => ("+"%string, r)
        | String "-" r => ("-"%string, r)
        | _ => (EmptyString, rest)
        end in
      match take_digits after with
      | (EmptyString, _) => (EmptyString, s)
      | (ds, tl) => (String e (sign ++ ds), tl)
      end
    else (EmptyString, s)
  | EmptyString => (EmptyString, s)
  end.

Definition parse_number (s : string) : option (json * string) :=
  let (neg, body) :=
    match s with
    | String "-" rest => (true, rest)
    | _ => (false, s)
    end in
  match take_int body with
  | None => None
  | Some (int_part, after_int) =>
    let (frac, after_frac) := take_frac after_int in
    let (exp, rest) := take_exp after_frac in
    match frac, exp with
    | EmptyString, EmptyString =>
      let n := Z.of_N (digits_value int_part 0) in
      Some (JInt (if neg then (- n)%Z else n), rest)
    | _, _ =>
      Some (JFloat ((if neg then "-" else "") ++ int_part ++ frac ++ exp)%string, rest)
    end
  end.

Definition hex_value (c : ascii) : option N :=
  let n := N_of_ascii c in
  if ((48 <=? n) && (n <=? 57))%N then Some (n - 48)%N
  else if ((65 <=? n) && (n <=? 70))%N then Some (n - 55)%N
  else if ((97 <=? n) && (n <=? 102))%N then Some (n - 87)%N
  else None.

Definition hex4 (a b c d : ascii) : option N :=
  match hex_value a, hex_value b, hex_value c, hex_value d with
  | Some x, Some y, Some z, Some w => Some (4096 * x + 256 * y + 16 * z + w)%N
  | _, _, _, _ => None
  end.

(** The UTF-8 bytes of a code point (a lone surrogate takes three). *)
Definition utf8_encode (cp : N) : string :=
  let tail n := ascii_of_N (128 + n mod 64) in
  if (cp <? 0x80)%N then String (ascii_of_N cp) EmptyString
  else if (cp <? 0x800)%N then
    String (ascii_of_N (192 + cp / 64)) (String (tail cp) EmptyString)
  else if (cp <? 0x10000)%N then
    String (ascii_of_N (224 + cp / 4096))
      (String (tail (cp / 64)%N) (String (tail cp) EmptyString))
  else
    String (ascii_of_N (240 + cp / 262144))
      (String (tail (cp / 4096)%N) (String (tail (cp / 64)%N) (String (tail cp) EmptyString))).

Definition is_high_surrogate (cp : N) : bool := ((0xD800 <=? cp) && (cp <=? 0xDBFF))%N.

Definition is_low_surrogate (cp : N) : bool := ((0xDC00 <=? cp) && (cp <=? 0xDFFF))%N.

(** The characters of a string after its opening quote, up to the closing
    one, with the escapes replaced. *)
Fixpoint parse_string_body (s : string) : option (string * string) :=
  match s with
  | EmptyString => None
  | String "034" rest => Some (EmptyString, rest)
  | String "\" (String "u" (String a (String b (String c (String d rest))))) =>
    match hex4 a b c d with
    | None => None
    | Some hi =>
      let single :=
        match parse_string_body rest with
        | Some (body, tl) => Some ((utf8_encode hi ++ body)%string, tl)
        | None => None
        end in
      if is_high_surrogate hi then
        match rest with
        | String "\" (String "u" (String a' (String b' (String c' (String d' rest'))))) =>
          match hex4 a' b' c' d' with
          | Some lo =>
            if is_low_surrogate lo then
              match parse_string_body rest' with
              | Some (body, tl) =>
                let cp := (0x10000 + (hi - 0xD800) * 1024 + (lo - 0xDC00))%N in
                Some ((utf8_encode cp ++ body)%string, tl)
              | None => None
              end
            else single
          | None => single
          end
        | _ => single
        end
      else single
    end
  | String "\" (String e rest) =>
    let escaped :=
      match e with
      | "034" => Some "034"
      | "\" => Some "\"
      | "/" => Some "/"
      | "b" => Some "008"
      | "f" => Some "012"
      | "n" => Some "010"
      | "r" => Some "013"
      | "t" => Some "009"
      | _ => None
      end in
    match escaped, parse_string_body rest with
    | Some c, Some (body, tl) => Some (String c body, tl)
    | _, _ => None
    end
  | String "\" EmptyString => None
  | String c rest =>
    if (N_of_ascii c <? 32)%N then None
    else
      match parse_string_body rest with
      | Some (body, tl) => Some (String c body, tl)
      | None => None
      end
  end.

Fixpoint parse_value (fuel : nat) (s : string) {struct fuel} : option (json * string) :=
  match fuel with
  | O => None
  | S fuel' =>
    match s with
    | String "{" rest =>
      match skip_ws rest with
      | String "}" tl => Some (JObject [], tl)
      | inner => parse_pairs fuel' inner []
      end
    | String "[" rest =>
      match skip_ws rest with
      | String "]" tl => Some (JArray [], tl)
      | inner => parse_items fuel' inner []
      end
    | String "034" rest =>
      match parse_string_body rest with
      | Some (body, tl) => Some (JString body, tl)
      | None => None
      end
    | _ =>
      match strip_prefix "null" s, strip_prefix "true" s, strip_prefix "false" s with
      | Some tl, _, _ => Some (JNull, tl)
      | _, Some tl, _ => Some (JBool true, tl)
      | _, _, Some tl => Some (JBool false, tl)
      | _, _, _ =>
        match strip_prefix "NaN" s, strip_prefix "Infinity" s, strip_prefix "-Infinity" s with
        | Some tl, _, _ => Some (JFloat "nan", tl)
        | _, Some tl, _ => Some (JFloat "inf", tl)
        | _, _, Some tl => Some (JFloat "-inf", tl)
        | _, _, _ => parse_number s
        end
      end
    end
  end

with parse_items (fuel : nat) (s : string) (acc : list json) {struct fuel}
  : option (json * string) :=
  match fuel with
  | O => None
  | S fuel' =>
    match parse_value fuel' s with
    | None => None
    | Some (v, after) =>
      match skip_ws after with
      | String "," tl => parse_items fuel' (skip_ws tl) (acc ++ [v])%list
      | String "]" tl => Some (JArray (acc ++ [v])%list, tl)
      | _ => None
      end
    end
  end

with parse_pairs (fuel : nat) (s : string) (acc : list (string * json)) {struct fuel}
  : option (json * string) :=
  match fuel with
  | O => None
  | S fuel' =>
    match s with
    | String "034" rest =>
      match parse_string_body rest with
      | None => None
      | Some (key, after_key) =>
        match skip_ws after_key with
        | String ":" after_colon =>
          match parse_value fuel' (skip_ws after_colon) with
          | None => None
          | Some (v, after) =>
            match skip_ws after with
            | String "," tl => parse_pairs fuel' (skip_ws tl) (dict_set acc key v)
            | String "}" tl => Some (JObject (dict_set acc key v), tl)
            | _ => None
            end
          end
        | _ => None
        end
      end
    | _ => None
    end
  end.

Local Close Scope char_scope.

(** The whole text is one value, blanks around it allowed. *)
Definition json_parse (s : string) : option json :=
  match parse_value (2 + String.length s) (skip_ws s) with
  | Some (v, rest) =>
    match skip_ws rest with
    | EmptyString => Some v
    | _ => None
    end
  | None => None
  end.

(** [json.loads] as far as the grammar goes: [JSONDecodeError] for a text
    that is no JSON, the value otherwise.  The limits of the real decoder
    (nesting depth, digits of an int) are no part of it. *)
Definition json_decoder (s : string) : result json :=
  match json_parse s with
  | Some data => Return data
  | None => Raise JSONDecodeError
  end.

(** A text with every apostrophe turned into a double quote, to write JSON
    texts down. *)
Fixpoint dq (s : string) : string :=
  match s with
  | String c rest => String (if Ascii.eqb c "'"%char then "034"%char else c) (dq rest)
  | EmptyString => EmptyString
  end.

(** The bytes a publisher sends for a text. *)
Definition bytes_of (s : string) : list byte := list_byte_of_string s.

(** ** Inputs for the examples *)

(** The settings of a run with the default broker and topics. *)
Definition settings (token chat : option string) (notify_online : bool) : config :=
  {| MQTT_BROKER := "broker.hivemq.com";
     MQTT_PORT := 1883;
     MQTT_TOPIC_STATUS := "devices/IoT_device_365/status";
     MQTT_TOPIC_ALIVE := "devices/IoT_device_365/alive";
     TELEGRAM_BOT_TOKEN := token;
     TELEGRAM_CHAT_ID := chat;
     MONITOR_ALIVE := true;
     NOTIFY_ONLINE := notify_online |}.

Definition configured : config := settings (Some "110201543:AAHdqTcv") (Some "777000") true.

(** [int(s)] on a text of decimal digits, the only texts the examples give it. *)
Definition int_of_digits (s : string) : option Z :=
  match take_digits s with
  | (String c ds, EmptyString) => Some (Z.of_N (digits_value (String c ds) 0))
  | _ => None
  end.

(** An environment that sets nothing. *)
Definition empty_environ : string -> option string := fun _ => None.

(** Telegram answers every request with 200. *)
Definition post_ok : nat -> fstring -> tg_payload -> post_result :=
  fun _ _ _ => Responded 200.

(** No request gets through. *)
Definition post_down : nat -> fstring -> tg_payload -> post_result :=
  fun _ _ _ => Failed (RequestException "ConnectionError").


Definition morning : datetime :=
  {| year := 2024; month := 5; day := 17; hour := 8; minute := 30; second := 0 |}.

(** A message on the default status topic. *)
Definition status_message (json_text : string) : mqtt_message :=
  {| topic := "devices/IoT_device_365/status"; payload := bytes_of json_text |}.

(** A message on the default alive topic. *)
Definition alive_message (json_text : string) : mqtt_message :=
  {| topic := "devices/IoT_device_365/alive"; payload := bytes_of json_text |}.


Definition offline_text : string :=
  dq "{'device_id':'sensor1','status':'offline','reason':'power loss'}".




Definition bogus_text : string := dq "{'device_id':'x','status':'Bogus'}".



(** An offline notice whose device id was encoded as Latin-1: the byte [E9]
    stands alone, so the payload is no UTF-8. *)
Definition latin1_payload : list byte :=
  (bytes_of (dq "{'device_id':'caf") ++ [xe9] ++ bytes_of (dq "','status':'offline'}"))%list.

(** A decoder that gives up on every text, as [json.loads] does on one
    nested too deep. *)
Definition exhausted_decoder : string -> result json :=
  fun _ => Raise (OtherException "RecursionError").

Definition heartbeat_text : string :=
  dq "{'device_id':'y','rtc_time':'12:00:00','uptime_sec':3725}".

(** * Properties *)

Section Properties.

Variable json_loads : string -> result json.
Variable requests_post : nat -> fstring -> tg_payload -> post_result.

(** ** Delivery *)

(** One attempt sends one request and ends as [attempt_failure] says. *)
Lemma attempt_run (url : fstring) (body : tg_payload) (n : nat) :
  attempt requests_post url body n =
  ([Posted url body],
   match attempt_failure (requests_post n url body) with
   | None => Return tt
   | Some e => Raise e
   end).
Proof.
  unfold attempt, bind, post, raise_for_status, attempt_failure.
  destruct (requests_post n url body) as [code | e]; simpl; [ | reflexivity ].
  destruct ((400 <=? code)%Z && (code <? 600)%Z); reflexivity.
Qed.

(** Every run of [send_telegram_message], by how its attempts end. *)
Lemma send_telegram_message_run (cfg : config) (message : fstring) (mode : option string) (n : nat) :
  let url := request_url cfg in
  let body := request_body cfg message mode in
  send_telegram_message requests_post cfg message mode n =
  match attempt_failure (requests_post n url body) with
  | None => ([Posted url body], Return true)
  | Some e =>
    if is_RequestException e then
      if truthy mode then
        ([Posted url body;
          Printed [T "Failed to send Telegram message: "; X e];
          Printed [T "Retrying without formatting..."];
          Posted url (pop_parse_mode body)],
         Return
           match attempt_failure (requests_post (S n) url (pop_parse_mode body)) with
           | None => true
           | Some _ => false
           end)
      else
        ([Posted url body; Printed [T "Failed to send Telegram message: "; X e]],
         Return false)
    else ([Posted url body], Raise e)
  end.
Proof.
  intros url body.
  unfold send_telegram_message. fold url. fold body.
  unfold try_except at 1. unfold bind at 1.
  rewrite attempt_run.
  destruct (attempt_failure (requests_post n url body)) as [e | ]; [ | reflexivity ].
  destruct (is_RequestException e); [ | reflexivity ].
  destruct (truthy mode).
  - unfold bind, try_except, print, emit, ret. simpl.
    rewrite attempt_run.
    destruct (attempt_failure (requests_post (S n) url (pop_parse_mode body))); reflexivity.
  - reflexivity.
Qed.

(** C1. A formatted message ([parse_mode] set) is sent in at most two
    requests.  When the first attempt succeeds it is the only one and the
    call returns [True].  When the first attempt ends in a
    [RequestException], exactly one more request follows, to the same URL,
    with the same [chat_id] and the same [text] and without [parse_mode];
    the call then returns [True] if that retry succeeds and [False] if it
    fails, and raises nothing either way. *)
Theorem formatted_delivery_retries_once
  (cfg : config) (message : fstring) (mode : option string) (n : nat)
  (Hformatted : truthy mode = true) :
  let url := request_url cfg in
  let first := request_body cfg message mode in
  let second := pop_parse_mode first in
  let run := send_telegram_message requests_post cfg message mode n in
  List.length (posts (fst run)) <= 2
  /\ (attempt_failure (requests_post n url first) = None ->
      posts (fst run) = [(url, first)] /\ snd run = Return true)
  /\ (forall e,
        attempt_failure (requests_post n url first) = Some e ->
        is_RequestException e = true ->
        posts (fst run) = [(url, first); (url, second)]
        /\ parse_mode first = mode /\ text first = message
        /\ parse_mode second = None /\ text second = message
        /\ chat_id second = chat_id first
        /\ (attempt_failure (requests_post (S n) url second) = None ->
            snd run = Return true)
        /\ (attempt_failure (requests_post (S n) url second) <> None ->
            snd run = Return false)).
Proof.
  intros url first second run.
  assert (Hrun := send_telegram_message_run cfg message mode n).
  cbv zeta in Hrun. fold url first second run in Hrun.
  rewrite Hformatted in Hrun.
  assert (Hmode : parse_mode first = mode).
  { unfold first, request_body. simpl. now rewrite Hformatted. }
  split; [ | split ].
  - rewrite Hrun.
    destruct (attempt_failure (requests_post n url first)) as [e | ]; simpl; [ | lia ].
    destruct (is_RequestException e); simpl; lia.
  - intros Hok. rewrite Hrun, Hok. split; reflexivity.
  - intros e He Hreq. rewrite Hrun, He, Hreq. simpl.
    repeat split; trivial.
    + intros Hok. now rewrite Hok.
    + intros Hko.
      destruct (attempt_failure (requests_post (S n) url second)); [ reflexivity | now elim Hko ].
Qed.

(** ** Dispatch on the status *)

Lemma py_eq_str_true (v : json) (s : string) :
  py_eq_str v s = true <-> v = JString s.
Proof.
  destruct v; simpl; try (split; intros H; discriminate H).
  rewrite String.eqb_eq. split; intros H; [ now subst | now injection H ].
Qed.

Lemma py_eq_str_false (v : json) (s : string) :
  py_eq_str v s = false <-> v <> JString s.
Proof.
  rewrite <- py_eq_str_true. destruct (py_eq_str v s); split; congruence.
Qed.

(** The handler after the payload is decoded: its first two lines, then the
    [try] statement. *)
Lemma on_message_decoded (cfg : config) (now : datetime) (msg : mqtt_message)
  (payload_text : string) (n : nat) :
  decode_utf8 (payload msg) = Some payload_text ->
  on_message json_loads requests_post cfg now msg n =
  let (evs, r) :=
    try_except
      (process json_loads requests_post cfg (topic msg) payload_text (strftime now))
      (on_error payload_text) n in
  ((received_lines (topic msg) payload_text ++ evs)%list, r).
Proof.
  intros Hdecode. unfold on_message, bytes_decode. rewrite Hdecode.
  unfold bind at 1. unfold ret at 1. cbn [posts List.length Nat.add app].
  unfold bind at 1. unfold print at 1. unfold emit at 1. cbn [posts List.length Nat.add app].
  unfold bind at 1. unfold print at 1. unfold emit at 1. cbn [posts List.length Nat.add app].
  destruct (try_except _ _ n) as [evs r]. reflexivity.
Qed.

Lemma posts_app (a b : list event) : posts (a ++ b) = (posts a ++ posts b)%list.
Proof.
  induction a as [ | ev a IH ]; [ reflexivity | ].
  destruct ev; simpl; now rewrite IH.
Qed.

Lemma posts_of_logs (evs : list event) : Forall is_log evs -> posts evs = [].
Proof.
  induction 1 as [ | ev evs [line ->] _ IH ]; [ reflexivity | exact IH ].
Qed.

Lemma received_lines_are_logs (tp payload_text : string) :
  Forall is_log (received_lines tp payload_text).
Proof. repeat constructor; eexists; reflexivity. Qed.

Lemma process_malformed (cfg : config) (tp payload_text ts : string) (n : nat) :
  json_loads payload_text = Raise JSONDecodeError ->
  process json_loads requests_post cfg tp payload_text ts n = ([], Raise JSONDecodeError).
Proof.
  intros Hparse. unfold process, bind, loads. now rewrite Hparse.
Qed.

Lemma process_decoder_error (cfg : config) (tp payload_text ts : string) (n : nat) (e : exn) :
  json_loads payload_text = Raise e ->
  process json_loads requests_post cfg tp payload_text ts n = ([], Raise e).
Proof.
  intros Hparse. unfold process, bind, loads. now rewrite Hparse.
Qed.

Lemma print_data_run (line : fstring) (n : nat) :
  print_data line n
  = if printable line then ([Printed line], Return tt) else ([], Raise UnicodeEncodeError).
Proof. unfold print_data. now destruct (printable line). Qed.

(** A text that was decoded from UTF-8 can be encoded again. *)
Lemma decoded_is_encodable (bs : list byte) (s : string) :
  decode_utf8 bs = Some s -> encodable s = true.
Proof.
  unfold decode_utf8, encodable. destruct (utf8_valid bs) eqn:Hvalid; [ | discriminate ].
  intros [= <-]. now rewrite list_byte_of_string_of_list_byte.
Qed.

Lemma process_status_topic (cfg : config) (payload_text ts : string) (data : json) (n : nat) :
  json_loads payload_text = Return data ->
  process json_loads requests_post cfg (MQTT_TOPIC_STATUS cfg) payload_text ts n =
  handle_status requests_post cfg payload_text ts data n.
Proof.
  intros Hparse. unfold process, bind at 1, loads. rewrite Hparse, String.eqb_refl.
  cbn [ret posts List.length Nat.add app].
  now destruct (handle_status _ _ _ _ _ n).
Qed.

Lemma process_alive_topic (cfg : config) (tp payload_text ts : string) (data : json) (n : nat) :
  json_loads payload_text = Return data ->
  tp <> MQTT_TOPIC_STATUS cfg ->
  tp = MQTT_TOPIC_ALIVE cfg ->
  MONITOR_ALIVE cfg = true ->
  process json_loads requests_post cfg tp payload_text ts n = handle_alive data n.
Proof.
  intros Hparse Hstatus Halive Hmonitor. unfold process, bind at 1, loads.
  rewrite Hparse. apply String.eqb_neq in Hstatus. rewrite Hstatus.
  rewrite Halive, String.eqb_refl, Hmonitor.
  cbn [ret posts List.length Nat.add app andb].
  now destruct (handle_alive _ n).
Qed.

(** A block on something that is no dict stops at its first [get]. *)
Lemma handle_status_not_a_dict (cfg : config) (payload_text ts : string) (data : json) (n : nat) :
  (forall items, data <> JObject items) ->
  handle_status requests_post cfg payload_text ts data n = ([], Raise AttributeError).
Proof.
  intros Hdata. destruct data; try reflexivity. now elim (Hdata items).
Qed.

Lemma handle_alive_not_a_dict (data : json) (n : nat) :
  (forall items, data <> JObject items) ->
  handle_alive data n = ([], Raise AttributeError).
Proof.
  intros Hdata. destruct data; try reflexivity. now elim (Hdata items).
Qed.

Lemma handle_alive_dict (items : list (string * json)) (n : nat) :
  let line :=
    [T "💚 Device heartbeat: "; V (dict_get items "device_id" (JString "Unknown"));
     T " - Uptime: "; V (dict_get items "uptime_sec" (JInt 0)); T "s"] in
  handle_alive (JObject items) n
  = if printable line then ([Printed line], Return tt)
    else ([], Raise UnicodeEncodeError).
Proof.
  intros line. unfold handle_alive, bind.
  cbn [py_get ret posts List.length Nat.add app]. fold line.
  rewrite print_data_run. now destruct (printable line).
Qed.

(** The shape the four notifying arms share: the headline, the delivery,
    and the line that reports it; nothing happens after a headline that
    cannot be printed. *)
Lemma notify_run (cfg : config) (headline message : fstring) (ok : string) (n : nat) :
  (print_data headline ;;
   sent <- send_telegram_message requests_post cfg message (Some "HTML") ;;
   report sent ok) n =
  if printable headline then
    let (evs, r) := send_telegram_message requests_post cfg message (Some "HTML") n in
    match r with
    | Return sent =>
      (Printed headline
         :: evs ++ [Printed [T (if sent then ok else "❌ Failed to send Telegram notification")]],
       Return tt)%list
    | Raise e => (Printed headline :: evs, Raise e)
    end
  else ([], Raise UnicodeEncodeError).
Proof.
  unfold bind at 1. rewrite print_data_run.
  destruct (printable headline); [ | reflexivity ].
  cbn [posts List.length Nat.add app].
  unfold bind at 1.
  destruct (send_telegram_message requests_post cfg message (Some "HTML") n) as [evs [sent | e]].
  - unfold report. destruct sent; reflexivity.
  - reflexivity.
Qed.

Lemma handle_status_dict (cfg : config) (payload_text ts : string)
  (items : list (string * json)) (n : nat) :
  let device_id := dict_get items "device_id" (JString "Unknown") in
  let status := dict_get items "status" (JString "Unknown") in
  handle_status requests_post cfg payload_text ts (JObject items) n =
  match status_branch cfg status with
  | DeviceOffline =>
    let reason := dict_get items "reason" (JString "unknown") in
    (print_data (arm_headline DeviceOffline device_id status reason) ;;
     sent <- send_telegram_message requests_post cfg
               (format_offline_message device_id reason (JString ts)) (Some "HTML") ;;
     report sent "✅ Offline notification sent to Telegram") n
  | DeviceOnline =>
    (print_data (arm_headline DeviceOnline device_id status JNull) ;;
     sent <- send_telegram_message requests_post cfg
               (format_online_message device_id (JString ts)) (Some "HTML") ;;
     report sent "✅ Online notification sent to Telegram") n
  | MotionConfirmed =>
    (print_data (arm_headline MotionConfirmed device_id status JNull) ;;
     sent <- send_telegram_message requests_post cfg
               (motion_confirmed_message device_id (dict_get items "timestamp" (JString ts)))
               (Some "HTML") ;;
     report sent "✅ Motion alert sent to Telegram") n
  | MotionCleared =>
    if printable (arm_headline MotionCleared device_id status JNull)
    then ([Printed (arm_headline MotionCleared device_id status JNull)], Return tt)
    else ([], Raise UnicodeEncodeError)
  | MotionDetectedInitial =>
    (print_data (arm_headline MotionDetectedInitial device_id status JNull) ;;
     sent <- send_telegram_message requests_post cfg
               (motion_detected_message device_id (dict_get items "timestamp" (JString ts)))
               (Some "HTML") ;;
     report sent "✅ Initial motion alert sent to Telegram") n
  | UnknownStatus =>
    if printable (arm_headline UnknownStatus device_id status JNull)
    then (unknown_status_lines status device_id payload_text, Return tt)
    else ([], Raise UnicodeEncodeError)
  end.
Proof.
  intros device_id status. unfold handle_status.
  unfold bind at 1. cbn [py_get ret posts List.length Nat.add app].
  unfold bind at 1. cbn [py_get ret posts List.length Nat.add app].
  fold device_id status.
  destruct (status_branch cfg status); cbn [arm_headline].
  - unfold bind at 1. cbn [py_get ret posts List.length Nat.add app].
    now destruct ((print_data _ ;; _) n).
  - now destruct ((print_data _ ;; _) n).
  - rewrite !notify_run. unfold bind at 1. rewrite print_data_run.
    destruct (printable _); [ | reflexivity ].
    cbn [posts List.length Nat.add app].
    unfold bind at 1. cbn [py_get ret posts List.length Nat.add app].
    unfold bind at 1.
    destruct (send_telegram_message _ _ _ _ _) as [evs [sent | e]]; [ | reflexivity ].
    unfold report. destruct sent; reflexivity.
  - rewrite print_data_run. now destruct (printable _).
  - rewrite !notify_run. unfold bind at 1. rewrite print_data_run.
    destruct (printable _); [ | reflexivity ].
    cbn [posts List.length Nat.add app].
    unfold bind at 1. cbn [py_get ret posts List.length Nat.add app].
    unfold bind at 1.
    destruct (send_telegram_message _ _ _ _ _) as [evs [sent | e]]; [ | reflexivity ].
    unfold report. destruct sent; reflexivity.
  - unfold bind at 1. rewrite print_data_run.
    destruct (printable _); reflexivity.
Qed.

Lemma on_message_returns (cfg : config) (now : datetime) (msg : mqtt_message)
  (payload_text : string) (n : nat) (evs : list event) :
  decode_utf8 (payload msg) = Some payload_text ->
  process json_loads requests_post cfg (topic msg) payload_text (strftime now) n
  = (evs, Return tt) ->
  on_message json_loads requests_post cfg now msg n
  = ((received_lines (topic msg) payload_text ++ evs)%list, Return tt).
Proof.
  intros Hdecode Hrun. rewrite (on_message_decoded _ _ _ _ _ Hdecode).
  unfold try_except. now rewrite Hrun.
Qed.

Lemma on_message_handles (cfg : config) (now : datetime) (msg : mqtt_message)
  (payload_text : string) (n : nat) (evs : list event) (e : exn) :
  decode_utf8 (payload msg) = Some payload_text ->
  process json_loads requests_post cfg (topic msg) payload_text (strftime now) n
  = (evs, Raise e) ->
  is_Exception e = true ->
  on_message json_loads requests_post cfg now msg n
  = ((received_lines (topic msg) payload_text ++ evs
      ++ [Printed (if is_JSONDecodeError e
                   then [T "⚠️ Failed to parse JSON payload: "; V (JString payload_text)]
                   else [T "❌ Error processing message: "; X e])])%list,
     Return tt).
Proof.
  intros Hdecode Hrun He. rewrite (on_message_decoded _ _ _ _ _ Hdecode).
  unfold try_except, on_error. rewrite Hrun, He.
  destruct (is_JSONDecodeError e); reflexivity.
Qed.

Lemma on_message_propagates (cfg : config) (now : datetime) (msg : mqtt_message)
  (payload_text : string) (n : nat) (evs : list event) (e : exn) :
  decode_utf8 (payload msg) = Some payload_text ->
  process json_loads requests_post cfg (topic msg) payload_text (strftime now) n
  = (evs, Raise e) ->
  is_Exception e = false ->
  on_message json_loads requests_post cfg now msg n
  = ((received_lines (topic msg) payload_text ++ evs)%list, Raise e).
Proof.
  intros Hdecode Hrun He. rewrite (on_message_decoded _ _ _ _ _ Hdecode).
  unfold try_except, on_error. rewrite Hrun, He.
  destruct e; try discriminate He. reflexivity.
Qed.

(** A notifying arm inside the handler, its headline printed: after the
    headline come the events of the delivery, and after those only log lines. *)
Lemma on_message_notifies (cfg : config) (now : datetime) (msg : mqtt_message)
  (payload_text : string) (n : nat) (headline message : fstring) (ok : string) :
  decode_utf8 (payload msg) = Some payload_text ->
  process json_loads requests_post cfg (topic msg) payload_text (strftime now) n
  = (print_data headline ;;
     sent <- send_telegram_message requests_post cfg message (Some "HTML") ;;
     report sent ok) n ->
  printable headline = true ->
  exists tail,
    fst (on_message json_loads requests_post cfg now msg n)
    = (received_lines (topic msg) payload_text
       ++ Printed headline
       :: fst (send_telegram_message requests_post cfg message (Some "HTML") n) ++ tail)%list
    /\ Forall is_log tail.
Proof.
  intros Hdecode Hrun Hprintable. rewrite notify_run, Hprintable in Hrun.
  destruct (send_telegram_message requests_post cfg message (Some "HTML") n)
    as [evs [sent | e]]; cbn [fst].
  - rewrite (on_message_returns _ _ _ _ _ _ Hdecode Hrun).
    eexists. split; [ reflexivity | ].
    repeat constructor. eexists; reflexivity.
  - destruct (is_Exception e) eqn:He.
    + rewrite (on_message_handles _ _ _ _ _ _ _ Hdecode Hrun He).
      eexists. split; [ reflexivity | ].
      repeat constructor. eexists; reflexivity.
    + rewrite (on_message_propagates _ _ _ _ _ _ _ Hdecode Hrun He).
      exists []. split; [ now rewrite app_nil_r | constructor ].
Qed.

(** A block that stops at a line it cannot print: the last [except] clause
    logs the [UnicodeEncodeError] and the handler returns. *)
Lemma on_message_blocked (cfg : config) (now : datetime) (msg : mqtt_message)
  (payload_text : string) (n : nat) :
  decode_utf8 (payload msg) = Some payload_text ->
  process json_loads requests_post cfg (topic msg) payload_text (strftime now) n
  = ([], Raise UnicodeEncodeError) ->
  on_message json_loads requests_post cfg now msg n
  = ((received_lines (topic msg) payload_text
      ++ [Printed (error_line payload_text UnicodeEncodeError)])%list,
     Return tt).
Proof.
  intros Hdecode Hrun.
  now rewrite (on_message_handles _ _ _ _ _ _ _ Hdecode Hrun eq_refl).
Qed.



(** What the status block makes of a dict that arrived on the status topic. *)
Lemma process_status_dict (cfg : config) (now : datetime) (msg : mqtt_message)
  (payload_text : string) (items : list (string * json)) (n : nat) :
  json_loads payload_text = Return (JObject items) ->
  topic msg = MQTT_TOPIC_STATUS cfg ->
  process json_loads requests_post cfg (topic msg) payload_text (strftime now) n
  = handle_status requests_post cfg payload_text (strftime now) (JObject items) n.
Proof.
  intros Hparse Htopic. rewrite Htopic. now apply process_status_topic.
Qed.

(** A notifying arm as the status block runs it. *)
Lemma handle_status_notifying (cfg : config) (payload_text ts : string)
  (items : list (string * json)) (n : nat) (message : fstring) (ok : string) :
  let device_id := dict_get items "device_id" (JString "Unknown") in
  let status := dict_get items "status" (JString "Unknown") in
  let reason := dict_get items "reason" (JString "unknown") in
  arm_notification (status_branch cfg status) items ts = Some (message, ok) ->
  handle_status requests_post cfg payload_text ts (JObject items) n
  = (print_data (arm_headline (status_branch cfg status) device_id status reason) ;;
     sent <- send_telegram_message requests_post cfg message (Some "HTML") ;;
     report sent ok) n.
Proof.
  intros device_id status reason Harm.
  rewrite handle_status_dict. cbv zeta. fold device_id status reason.
  destruct (status_branch cfg status); cbn [arm_notification] in Harm;
    try discriminate Harm; injection Harm as <- <-; reflexivity.
Qed.

(** A silent arm as the status block runs it. *)
Lemma handle_status_silent (cfg : config) (payload_text ts : string)
  (items : list (string * json)) (n : nat) :
  let device_id := dict_get items "device_id" (JString "Unknown") in
  let status := dict_get items "status" (JString "Unknown") in
  let reason := dict_get items "reason" (JString "unknown") in
  let headline := arm_headline (status_branch cfg status) device_id status reason in
  arm_notification (status_branch cfg status) items ts = None ->
  handle_status requests_post cfg payload_text ts (JObject items) n
  = if printable headline then
      (Printed headline
         :: match status_branch cfg status with
            | UnknownStatus => [Printed [T "   Full payload: "; V (JString payload_text)]]
            | _ => []
            end,
       Return tt)
    else ([], Raise UnicodeEncodeError).
Proof.
  intros device_id status reason headline Harm. unfold headline.
  rewrite handle_status_dict. cbv zeta. fold device_id status.
  destruct (status_branch cfg status); cbn [arm_notification] in Harm;
    try discriminate Harm; reflexivity.
Qed.

(** Every run of the handler on a dict that arrived on the status topic.
    When the headline of the selected arm cannot be printed, the handler
    logs the [UnicodeEncodeError] and returns.  Otherwise a silent arm prints
    its line or lines and returns, and a notifying arm prints its headline,
    delivers, and reports; an [Exception] out of the delivery is logged
    instead of the report, anything else goes up to the caller. *)
Lemma on_message_status_dict (cfg : config) (now : datetime) (msg : mqtt_message)
  (payload_text : string) (items : list (string * json)) (n : nat) :
  decode_utf8 (payload msg) = Some payload_text ->
  json_loads payload_text = Return (JObject items) ->
  topic msg = MQTT_TOPIC_STATUS cfg ->
  let device_id := dict_get items "device_id" (JString "Unknown") in
  let status := dict_get items "status" (JString "Unknown") in
  let reason := dict_get items "reason" (JString "unknown") in
  let headline := arm_headline (status_branch cfg status) device_id status reason in
  let opening := (received_lines (topic msg) payload_text ++ [Printed headline])%list in
  on_message json_loads requests_post cfg now msg n
  = if printable headline then
      match arm_notification (status_branch cfg status) items (strftime now) with
      | None =>
        ((opening
          ++ match status_branch cfg status with
             | UnknownStatus => [Printed [T "   Full payload: "; V (JString payload_text)]]
             | _ => []
             end)%list,
         Return tt)
      | Some (message, ok) =>
        let delivery := send_telegram_message requests_post cfg message (Some "HTML") n in
        match snd delivery with
        | Return sent =>
          ((opening ++ fst delivery
            ++ [Printed [T (if sent then ok
                            else "❌ Failed to send Telegram notification")]])%list,
           Return tt)
        | Raise e =>
          if is_Exception e
          then ((opening ++ fst delivery ++ [Printed (error_line payload_text e)])%list,
                Return tt)
          else ((opening ++ fst delivery)%list, Raise e)
        end
      end
    else ((received_lines (topic msg) payload_text
           ++ [Printed (error_line payload_text UnicodeEncodeError)])%list,
          Return tt).
Proof.
  intros Hdecode Hparse Htopic device_id status reason headline opening.
  assert (Hp := process_status_dict cfg now msg payload_text items n Hparse Htopic).
  destruct (arm_notification (status_branch cfg status) items (strftime now))
    as [[message ok] | ] eqn:Harm.
  - rewrite (handle_status_notifying _ _ _ _ _ _ _ Harm), notify_run in Hp.
    fold device_id status reason headline in Hp.
    destruct (printable headline); [ | now apply on_message_blocked ].
    cbv zeta. unfold opening.
    destruct (send_telegram_message requests_post cfg message (Some "HTML") n)
      as [evs [sent | e]]; cbn [fst snd].
    + rewrite (on_message_returns _ _ _ _ _ _ Hdecode Hp). now rewrite <- app_assoc.
    + destruct (is_Exception e) eqn:He.
      * rewrite (on_message_handles _ _ _ _ _ _ _ Hdecode Hp He). now rewrite <- app_assoc.
      * rewrite (on_message_propagates _ _ _ _ _ _ _ Hdecode Hp He).
        now rewrite <- app_assoc.
  - rewrite (handle_status_silent _ _ _ _ _ Harm) in Hp.
    fold device_id status reason headline in Hp.
    destruct (printable headline); [ | now apply on_message_blocked ].
    rewrite (on_message_returns _ _ _ _ _ _ Hdecode Hp). unfold opening.
    now rewrite <- app_assoc.
Qed.


(** ** Errors inside and outside the [try] *)

(** The payload is decoded before the [try] statement is entered, so a
    payload that is not UTF-8 ends the handler with the codec's exception. *)
Lemma on_message_undecodable (cfg : config) (now : datetime) (msg : mqtt_message) (n : nat) :
  decode_utf8 (payload msg) = None ->
  on_message json_loads requests_post cfg now msg n = ([], Raise UnicodeDecodeError).
Proof.
  intros Hdecode. unfold on_message, bytes_decode, bind at 1. now rewrite Hdecode.
Qed.

(** C3 (as the code has it). The one-byte payload [FF], on any topic and with
    any settings, makes [on_message] raise [UnicodeDecodeError] to its
    caller before it has printed anything: line 216 decodes the payload
    outside the [try] of line 222. *)
Theorem on_message_raises_on_byte_ff (cfg : config) (now : datetime) (tp : string) (n : nat) :
  on_message json_loads requests_post cfg now {| topic := tp; payload := [xff] |} n
  = ([], Raise UnicodeDecodeError).
Proof. now apply on_message_undecodable. Qed.

Lemma on_message_malformed (cfg : config) (now : datetime) (msg : mqtt_message)
  (payload_text : string) (n : nat) :
  decode_utf8 (payload msg) = Some payload_text ->
  json_loads payload_text = Raise JSONDecodeError ->
  on_message json_loads requests_post cfg now msg n
  = ((received_lines (topic msg) payload_text
      ++ [Printed [T "⚠️ Failed to parse JSON payload: "; V (JString payload_text)]])%list,
     Return tt).
Proof.
  intros Hdecode Hparse.
  now rewrite (on_message_handles cfg now msg payload_text n [] JSONDecodeError Hdecode
                 (process_malformed cfg _ _ _ n Hparse) eq_refl).
Qed.

(** C6 (as the code has it). A payload that is no JSON because it is no
    UTF-8 (here an offline notice encoded as Latin-1) is not dropped with a
    log line: on any topic and with any settings the handler prints nothing
    and raises [UnicodeDecodeError] to its caller, because line 216 decodes
    the payload before the [try] of line 222 is entered. *)
Theorem latin1_payload_is_not_dropped (cfg : config) (now : datetime) (tp : string) (n : nat) :
  utf8_valid latin1_payload = false
  /\ on_message json_loads requests_post cfg now {| topic := tp; payload := latin1_payload |} n
     = ([], Raise UnicodeDecodeError).
Proof.
  split; [ reflexivity | now apply on_message_undecodable ].
Qed.

(** An [Exception] of [json.loads] that is no [JSONDecodeError] (the decoder
    ran into one of its limits) is caught by the last clause, not by the
    first: on every topic the handler prints the processing-error line with
    that exception, not the parse-failure line, sends nothing and returns. *)
Theorem decoder_limit_is_a_processing_error
  (cfg : config) (now : datetime) (msg : mqtt_message) (payload_text : string)
  (n : nat) (e : exn)
  (Hdecode : decode_utf8 (payload msg) = Some payload_text)
  (Hparse : json_loads payload_text = Raise e)
  (Hexception : is_Exception e = true)
  (Hother : is_JSONDecodeError e = false) :
  on_message json_loads requests_post cfg now msg n
  = ((received_lines (topic msg) payload_text
      ++ [Printed [T "❌ Error processing message: "; X e]])%list,
     Return tt).
Proof.
  rewrite (on_message_handles cfg now msg payload_text n [] e Hdecode
             (process_decoder_error cfg _ _ _ n e Hparse) Hexception).
  now rewrite Hother.
Qed.

(** A payload that decodes to a text [json.loads] rejects as no JSON (with
    [JSONDecodeError]) is handled the same way on every topic: after its two
    opening lines the handler prints the parse-failure line with the payload
    text, sends no request and returns. *)
Theorem malformed_payload_is_dropped
  (cfg : config) (now : datetime) (msg : mqtt_message) (payload_text : string) (n : nat)
  (Hdecode : decode_utf8 (payload msg) = Some payload_text)
  (Hparse : json_loads payload_text = Raise JSONDecodeError) :
  let run := on_message json_loads requests_post cfg now msg n in
  run = ((received_lines (topic msg) payload_text
          ++ [Printed [T "⚠️ Failed to parse JSON payload: "; V (JString payload_text)]])%list,
         Return tt)
  /\ posts (fst run) = [].
Proof.
  intros run.
  assert (Hrun : run = ((received_lines (topic msg) payload_text
          ++ [Printed [T "⚠️ Failed to parse JSON payload: "; V (JString payload_text)]])%list,
         Return tt)).
  { unfold run. now apply on_message_malformed. }
  split; [ exact Hrun | now rewrite Hrun ].
Qed.

(** C7. A message that ends in the no-motion arm, in the catch-all arm, in
    the heartbeat block, or in the parse-failure clause makes the handler
    print log lines only: no request is sent, and the handler returns. *)
Theorem silent_events_send_nothing
  (cfg : config) (now : datetime) (msg : mqtt_message) (payload_text : string) (n : nat)
  (Hdecode : decode_utf8 (payload msg) = Some payload_text)
  (Hsilent :
     json_loads payload_text = Raise JSONDecodeError
     \/ exists items,
         json_loads payload_text = Return (JObject items)
         /\ ((topic msg = MQTT_TOPIC_STATUS cfg
              /\ (status_branch cfg (dict_get items "status" (JString "Unknown"))
                  = MotionCleared
                  \/ status_branch cfg (dict_get items "status" (JString "Unknown"))
                     = UnknownStatus))
             \/ (topic msg <> MQTT_TOPIC_STATUS cfg
                 /\ topic msg = MQTT_TOPIC_ALIVE cfg
                 /\ MONITOR_ALIVE cfg = true))) :
  let run := on_message json_loads requests_post cfg now msg n in
  Forall is_log (fst run) /\ posts (fst run) = [] /\ snd run = Return tt.
Proof.
  intros run.
  assert (Hlogs : Forall is_log (fst run) /\ snd run = Return tt).
  { unfold run.
    destruct Hsilent as [Hparse | (items & Hparse & [(Htopic & Harm) | (Hns & Halive & Hmon)])].
    - rewrite (on_message_malformed cfg now msg payload_text n Hdecode Hparse).
      split; [ | reflexivity ]. repeat constructor; eexists; reflexivity.
    - assert (Hrun := on_message_status_dict cfg now msg payload_text items n
                        Hdecode Hparse Htopic).
      cbv zeta in Hrun. rewrite Hrun.
      destruct (printable _);
        [ | split; [ repeat constructor; eexists; reflexivity | reflexivity ] ].
      destruct Harm as [Harm | Harm]; rewrite Harm; cbn [arm_notification];
        (split; [ | reflexivity ]); repeat constructor; eexists; reflexivity.
    - assert (Hp := process_alive_topic cfg (topic msg) payload_text (strftime now)
                      (JObject items) n Hparse Hns Halive Hmon).
      rewrite handle_alive_dict in Hp. cbv zeta in Hp.
      destruct (printable _).
      + rewrite (on_message_returns _ _ _ _ _ _ Hdecode Hp).
        split; [ | reflexivity ]. repeat constructor; eexists; reflexivity.
      + rewrite (on_message_blocked _ _ _ _ _ Hdecode Hp).
        split; [ | reflexivity ]. repeat constructor; eexists; reflexivity. }
  destruct Hlogs as [Hlogs Hret].
  repeat split; [ exact Hlogs | now apply posts_of_logs | exact Hret ].
Qed.


(** C10. A payload text that parses to a value that is no dict, on the
    status topic or on the monitored alive topic, makes the first [get]
    raise [AttributeError]; the last [except] clause catches it, so the
    handler prints the processing-error line (neither the parse-failure line
    nor the unknown-status lines), sends no request and returns. *)
Theorem non_dict_json_is_swallowed
  (cfg : config) (now : datetime) (msg : mqtt_message) (payload_text : string)
  (data : json) (n : nat)
  (Hdecode : decode_utf8 (payload msg) = Some payload_text)
  (Hparse : json_loads payload_text = Return data)
  (Hdata : forall items, data <> JObject items)
  (Htopic : topic msg = MQTT_TOPIC_STATUS cfg
            \/ (topic msg = MQTT_TOPIC_ALIVE cfg /\ MONITOR_ALIVE cfg = true)) :
  let run := on_message json_loads requests_post cfg now msg n in
  run = ((received_lines (topic msg) payload_text
          ++ [Printed [T "❌ Error processing message: "; X AttributeError]])%list,
         Return tt)
  /\ posts (fst run) = [].
Proof.
  intros run.
  assert (Hp : process json_loads requests_post cfg (topic msg) payload_text (strftime now) n
               = ([], Raise AttributeError)).
  { destruct (string_dec (topic msg) (MQTT_TOPIC_STATUS cfg)) as [Hs | Hs].
    - rewrite Hs, (process_status_topic cfg _ _ data n Hparse).
      now apply handle_status_not_a_dict.
    - destruct Htopic as [Hs' | [Ha Hm]]; [ now elim Hs | ].
      rewrite (process_alive_topic cfg _ _ _ data n Hparse Hs Ha Hm).
      now apply handle_alive_not_a_dict. }
  assert (Hrun : run = ((received_lines (topic msg) payload_text
          ++ [Printed [T "❌ Error processing message: "; X AttributeError]])%list,
         Return tt)).
  { unfold run.
    now rewrite (on_message_handles cfg now msg payload_text n [] AttributeError Hdecode Hp
                   eq_refl). }
  split; [ exact Hrun | now rewrite Hrun ].
Qed.

(** ** What is delivered *)

Lemma send_telegram_message_delivers (cfg : config) (message : fstring)
  (mode : option string) (n : nat) :
  delivered message (fst (send_telegram_message requests_post cfg message mode n)).
Proof.
  assert (Hrun := send_telegram_message_run cfg message mode n). cbv zeta in Hrun.
  rewrite Hrun. unfold delivered, sent_texts.
  destruct (attempt_failure _) as [e | ]; [ | now left ].
  destruct (is_RequestException e); [ | now left ].
  destruct (truthy mode); [ now right | now left ].
Qed.

(** The requests of the handler on a dict in a notifying arm: those of the
    delivery when the headline was printed, none when it was not. *)
Lemma on_message_notifying_posts (cfg : config) (now : datetime) (msg : mqtt_message)
  (payload_text : string) (items : list (string * json)) (n : nat)
  (message : fstring) (ok : string) :
  decode_utf8 (payload msg) = Some payload_text ->
  json_loads payload_text = Return (JObject items) ->
  topic msg = MQTT_TOPIC_STATUS cfg ->
  let device_id := dict_get items "device_id" (JString "Unknown") in
  let status := dict_get items "status" (JString "Unknown") in
  let reason := dict_get items "reason" (JString "unknown") in
  let headline := arm_headline (status_branch cfg status) device_id status reason in
  arm_notification (status_branch cfg status) items (strftime now) = Some (message, ok) ->
  posts (fst (on_message json_loads requests_post cfg now msg n))
  = if printable headline
    then posts (fst (send_telegram_message requests_post cfg message (Some "HTML") n))
    else [].
Proof.
  intros Hdecode Hparse Htopic device_id status reason headline Harm.
  assert (Hrun := on_message_status_dict cfg now msg payload_text items n
                    Hdecode Hparse Htopic).
  cbv zeta in Hrun. fold device_id status reason headline in Hrun.
  rewrite Hrun, Harm.
  assert (Hopen : posts (received_lines (topic msg) payload_text ++ [Printed headline]) = []).
  { now rewrite posts_app, (posts_of_logs _ (received_lines_are_logs (topic msg) payload_text)). }
  destruct (printable headline).
  - destruct (send_telegram_message requests_post cfg message (Some "HTML") n)
      as [evs [sent | e]]; cbn [fst snd]; [ | destruct (is_Exception e); cbn [fst] ];
      rewrite ?posts_app in *; rewrite Hopen; cbn [app posts]; now rewrite ?app_nil_r.
  - cbn [fst]. now rewrite posts_app, (posts_of_logs _ (received_lines_are_logs (topic msg) payload_text)).
Qed.




(** ** The heartbeat format *)

(** The three numbers of the uptime text add up to the uptime, with the
    minutes and the seconds below 60; an uptime of 3725 seconds reads
    [1h 2m 5s]. *)
Lemma uptime_str_splits :
  (forall uptime_sec,
      exists hours minutes seconds,
        uptime_str uptime_sec
        = [V (JInt hours); T "h "; V (JInt minutes); T "m "; V (JInt seconds); T "s"]
        /\ (3600 * hours + 60 * minutes + seconds = uptime_sec)%Z
        /\ (0 <= minutes < 60)%Z /\ (0 <= seconds < 60)%Z)
  /\ render (uptime_str 3725) = Some "1h 2m 5s".
Proof.
  split; [ | reflexivity ].
  intros uptime_sec.
  exists (uptime_sec / 3600)%Z, ((uptime_sec mod 3600) / 60)%Z, (uptime_sec mod 60)%Z.
  split; [ reflexivity | ].
  assert (H3600 := Z.div_mod uptime_sec 3600 ltac:(lia)).
  assert (Hr := Z.mod_pos_bound uptime_sec 3600 ltac:(lia)).
  assert (H60 := Z.div_mod (uptime_sec mod 3600) 60 ltac:(lia)).
  assert (Hs := Z.mod_pos_bound uptime_sec 60 ltac:(lia)).
  assert (Hmm : ((uptime_sec mod 3600) mod 60 = uptime_sec mod 60)%Z).
  { apply Z.mod_mod_divide. exists 60%Z. lia. }
  rewrite Hmm in H60.
  assert (Hq : (0 <= (uptime_sec mod 3600) / 60 < 60)%Z).
  { split; [ apply Z.div_pos; lia | apply Z.div_lt_upper_bound; lia ]. }
  repeat split; lia.
Qed.

(** ** Startup *)

Lemma opt_str_is (o : option string) (s : string) :
  py_eq_str (opt_str o) s = true <-> o = Some s.
Proof.
  destruct o as [t | ]; cbn [opt_str py_eq_str].
  - rewrite String.eqb_eq. split; [ now intros -> | now intros [= ->] ].
  - split; discriminate.
Qed.

Lemma in_bind_first {A B : Type} (m : M A) (k : A -> M B) (n : nat) (ev : event) :
  In ev (fst (m n)) -> In ev (fst (bind m k n)).
Proof.
  unfold bind. destruct (m n) as [evs [a | e]]; cbn [fst]; [ | trivial ].
  destruct (k a _) as [evs' r']. cbn [fst]. intros H. apply in_or_app. now left.
Qed.

Lemma in_bind_after {A B : Type} (m : M A) (k : A -> M B) (n : nat) (ev : event) (a : A) :
  snd (m n) = Return a ->
  In ev (fst (k a (List.length (posts (fst (m n))) + n))) ->
  In ev (fst (bind m k n)).
Proof.
  unfold bind. destruct (m n) as [evs r]. cbn [fst snd]. intros ->.
  destruct (k a _) as [evs' r']. cbn [fst]. intros H. apply in_or_app. now right.
Qed.

Lemma in_try_first {A : Type} (m : M A) (h : exn -> option (M A)) (n : nat) (ev : event) :
  In ev (fst (m n)) -> In ev (fst (try_except m h n)).
Proof.
  unfold try_except. destruct (m n) as [evs [a | e]]; cbn [fst]; [ trivial | ].
  destruct (h e) as [handler | ]; [ | trivial ].
  destruct (handler _) as [evs' r']. cbn [fst]. intros H. apply in_or_app. now left.
Qed.

(** [main] goes on to [client.connect] unless a credential is the
    placeholder text. *)
Lemma main_connects (cfg : config) (connect_result loop_result : option exn)
  (now : datetime) (n : nat) :
  TELEGRAM_BOT_TOKEN cfg <> Some "YOUR_BOT_TOKEN_HERE" ->
  TELEGRAM_CHAT_ID cfg <> Some "YOUR_CHAT_ID_HERE" ->
  In (Connected (MQTT_BROKER cfg) (MQTT_PORT cfg))
     (fst (main requests_post cfg connect_result loop_result now n)).
Proof.
  intros Htoken Hchat. unfold main.
  destruct (py_eq_str (opt_str (TELEGRAM_BOT_TOKEN cfg)) "YOUR_BOT_TOKEN_HERE") eqn:Et;
    [ now apply opt_str_is in Et | ].
  destruct (py_eq_str (opt_str (TELEGRAM_CHAT_ID cfg)) "YOUR_CHAT_ID_HERE") eqn:Ec;
    [ now apply opt_str_is in Ec | ].
  do 5 (apply in_bind_after with (a := tt); [ reflexivity | ]).
  apply in_bind_first, in_try_first, in_bind_first.
  now left.
Qed.

(** With a placeholder credential [main] prints the error and returns: it
    never calls [client.connect]. *)
Lemma main_stops_on_placeholder (cfg : config) (connect_result loop_result : option exn)
  (now : datetime) (n : nat) :
  TELEGRAM_BOT_TOKEN cfg = Some "YOUR_BOT_TOKEN_HERE"
  \/ TELEGRAM_CHAT_ID cfg = Some "YOUR_CHAT_ID_HERE" ->
  Forall is_log (fst (main requests_post cfg connect_result loop_result now n))
  /\ snd (main requests_post cfg connect_result loop_result now n) = Return tt.
Proof.
  intros Hplaceholder. unfold main.
  destruct (py_eq_str (opt_str (TELEGRAM_BOT_TOKEN cfg)) "YOUR_BOT_TOKEN_HERE") eqn:Et.
  - split; [ | reflexivity ]. repeat constructor; eexists; reflexivity.
  - destruct (py_eq_str (opt_str (TELEGRAM_CHAT_ID cfg)) "YOUR_CHAT_ID_HERE") eqn:Ec.
    + split; [ | reflexivity ]. repeat constructor; eexists; reflexivity.
    + destruct Hplaceholder as [H | H]; apply opt_str_is in H; congruence.
Qed.

(** C8 (as the code has it). With neither credential in the environment the
    settings hold [None] for both, [None] is not the placeholder text, and
    [main] calls [client.connect] on the default broker. *)
Theorem main_connects_without_credentials :
  module_config int_of_digits empty_environ = Return (settings None None true)
  /\ forall connect_result loop_result now n,
      In (Connected "broker.hivemq.com" 1883)
         (fst (main requests_post (settings None None true)
                 connect_result loop_result now n)).
Proof.
  split; [ reflexivity | ].
  intros connect_result loop_result now n.
  apply (main_connects (settings None None true)); discriminate.
Qed.

(** A payload that decodes never makes the handler raise an [Exception]:
    it returns, or lets through what is no [Exception] at all. *)
Lemma on_message_lets_no_exception_escape (cfg : config) (now : datetime)
  (msg : mqtt_message) (payload_text : string) (n : nat) (e : exn) :
  decode_utf8 (payload msg) = Some payload_text ->
  snd (on_message json_loads requests_post cfg now msg n) = Raise e ->
  is_Exception e = false.
Proof.
  intros Hdecode. rewrite (on_message_decoded _ _ _ _ _ Hdecode).
  unfold try_except, on_error.
  destruct (process _ _ _ _ _ _ n) as [evs [[] | e']]; cbn [snd]; [ discriminate | ].
  destruct (is_JSONDecodeError e'); [ discriminate | ].
  destruct (is_Exception e') eqn:He; [ discriminate | ].
  cbn [snd]. now intros [= <-].
Qed.

(** ** More on delivery *)

(** The requests of one call: the first attempt, and at most the retry. *)
Lemma send_telegram_message_posts (cfg : config) (message : fstring)
  (mode : option string) (n : nat) :
  let url := request_url cfg in
  let body := request_body cfg message mode in
  posts (fst (send_telegram_message requests_post cfg message mode n)) = [(url, body)]
  \/ posts (fst (send_telegram_message requests_post cfg message mode n))
     = [(url, body); (url, pop_parse_mode body)].
Proof.
  intros url body.
  assert (Hrun := send_telegram_message_run cfg message mode n). cbv zeta in Hrun.
  fold url body in Hrun. rewrite Hrun.
  destruct (attempt_failure _) as [e | ]; [ | now left ].
  destruct (is_RequestException e); [ | now left ].
  destruct (truthy mode); [ now right | now left ].
Qed.

(** A message sent without formatting ([parse_mode] is [None] or empty) gets
    one attempt and no retry: the request carries no [parse_mode], and the
    call returns [True] when the attempt succeeds and [False] when it ends in
    a [RequestException]. *)
Theorem unformatted_delivery_is_single_attempt
  (cfg : config) (message : fstring) (mode : option string) (n : nat)
  (Hplain : truthy mode = false) :
  let url := request_url cfg in
  let body := request_body cfg message mode in
  let run := send_telegram_message requests_post cfg message mode n in
  posts (fst run) = [(url, body)]
  /\ parse_mode body = None /\ text body = message
  /\ (attempt_failure (requests_post n url body) = None -> snd run = Return true)
  /\ (forall e,
        attempt_failure (requests_post n url body) = Some e ->
        is_RequestException e = true ->
        run = ([Posted url body; Printed [T "Failed to send Telegram message: "; X e]],
               Return false)).
Proof.
  intros url body run.
  assert (Hrun := send_telegram_message_run cfg message mode n). cbv zeta in Hrun.
  fold url body run in Hrun. rewrite Hplain in Hrun.
  assert (Hmode : parse_mode body = None).
  { unfold body, request_body. cbn [parse_mode]. now rewrite Hplain. }
  repeat split; trivial.
  - rewrite Hrun. destruct (attempt_failure _) as [e | ]; [ | reflexivity ].
    now destruct (is_RequestException e).
  - intros Hok. now rewrite Hrun, Hok.
  - intros e He Hreq. now rewrite Hrun, He, Hreq.
Qed.

(** An exception of the first attempt that is no [RequestException] is not
    handled: whatever the formatting, the call raises it after that one
    request, prints nothing and does not retry. *)
Theorem unexpected_error_is_not_retried
  (cfg : config) (message : fstring) (mode : option string) (n : nat) (e : exn)
  (Hfirst : attempt_failure
              (requests_post n (request_url cfg) (request_body cfg message mode)) = Some e)
  (Hother : is_RequestException e = false) :
  send_telegram_message requests_post cfg message mode n
  = ([Posted (request_url cfg) (request_body cfg message mode)], Raise e).
Proof.
  assert (Hrun := send_telegram_message_run cfg message mode n). cbv zeta in Hrun.
  now rewrite Hrun, Hfirst, Hother.
Qed.

(** ** Every path of the handler *)

Lemma process_other_topic (cfg : config) (tp payload_text ts : string) (data : json) (n : nat) :
  json_loads payload_text = Return data ->
  tp <> MQTT_TOPIC_STATUS cfg ->
  (tp =? MQTT_TOPIC_ALIVE cfg) && MONITOR_ALIVE cfg = false ->
  process json_loads requests_post cfg tp payload_text ts n = ([], Return tt).
Proof.
  intros Hparse Hstatus Halive. unfold process, bind at 1, loads.
  rewrite Hparse. apply String.eqb_neq in Hstatus. now rewrite Hstatus, Halive.
Qed.

(** Every message either sends nothing, or is a dict on the status topic in
    a notifying arm and sends what the delivery of that arm's message sends. *)
Lemma on_message_posts (cfg : config) (now : datetime) (msg : mqtt_message) (n : nat) :
  posts (fst (on_message json_loads requests_post cfg now msg n)) = []
  \/ exists payload_text items message ok,
      decode_utf8 (payload msg) = Some payload_text
      /\ json_loads payload_text = Return (JObject items)
      /\ topic msg = MQTT_TOPIC_STATUS cfg
      /\ arm_notification
           (status_branch cfg (dict_get items "status" (JString "Unknown")))
           items (strftime now) = Some (message, ok)
      /\ posts (fst (on_message json_loads requests_post cfg now msg n))
         = posts (fst (send_telegram_message requests_post cfg message (Some "HTML") n)).
Proof.
  destruct (decode_utf8 (payload msg)) as [payload_text | ] eqn:Hdecode;
    [ | left; now rewrite on_message_undecodable ].
  assert (Hquiet : forall evs r,
             process json_loads requests_post cfg (topic msg) payload_text (strftime now) n
             = (evs, r) ->
             Forall is_log evs ->
             posts (fst (on_message json_loads requests_post cfg now msg n)) = []).
  { intros evs r Hp Hlogs.
    assert (Hopen := posts_of_logs _ (received_lines_are_logs (topic msg) payload_text)).
    destruct r as [[] | e]; [ | destruct (is_Exception e) eqn:He ].
    - rewrite (on_message_returns _ _ _ _ _ _ Hdecode Hp). cbn [fst].
      now rewrite posts_app, (posts_of_logs _ Hlogs), Hopen.
    - rewrite (on_message_handles _ _ _ _ _ _ _ Hdecode Hp He). cbn [fst].
      now rewrite !posts_app, (posts_of_logs _ Hlogs), Hopen.
    - rewrite (on_message_propagates _ _ _ _ _ _ _ Hdecode Hp He). cbn [fst].
      now rewrite posts_app, (posts_of_logs _ Hlogs), Hopen. }
  destruct (json_loads payload_text) as [data | e] eqn:Hparse;
    [ | left; apply (Hquiet [] (Raise e)); [ now apply process_decoder_error | constructor ] ].
  assert (Hdict : (exists items, data = JObject items) \/ forall items, data <> JObject items).
  { destruct data; try (right; discriminate). left. now eexists. }
  destruct (string_dec (topic msg) (MQTT_TOPIC_STATUS cfg)) as [Hs | Hs].
  - destruct Hdict as [[items ->] | Hnot].
    + destruct (arm_notification
                  (status_branch cfg (dict_get items "status" (JString "Unknown")))
                  items (strftime now)) as [[message ok] | ] eqn:Harm.
      * assert (Hposts := on_message_notifying_posts cfg now msg payload_text items n
                            message ok Hdecode Hparse Hs Harm).
        cbv zeta in Hposts.
        destruct (printable _); [ | now left ].
        right. exists payload_text, items, message, ok. now repeat split.
      * left.
        assert (Hp := process_status_dict cfg now msg payload_text items n Hparse Hs).
        rewrite (handle_status_silent _ _ _ _ _ Harm) in Hp.
        destruct (printable _).
        -- apply (Hquiet _ _ Hp).
           destruct (status_branch cfg _); repeat constructor; eexists; reflexivity.
        -- apply (Hquiet _ _ Hp). constructor.
    + left. apply (Hquiet [] (Raise AttributeError)); [ | constructor ].
      rewrite Hs, (process_status_topic cfg _ _ data n Hparse).
      now apply handle_status_not_a_dict.
  - left. destruct ((topic msg =? MQTT_TOPIC_ALIVE cfg) && MONITOR_ALIVE cfg) eqn:Ha.
    + apply andb_true_iff in Ha. destruct Ha as [Ha Hm]. apply String.eqb_eq in Ha.
      assert (Hp := process_alive_topic cfg (topic msg) payload_text (strftime now)
                      data n Hparse Hs Ha Hm).
      destruct Hdict as [[items ->] | Hnot].
      * rewrite handle_alive_dict in Hp. cbv zeta in Hp.
        destruct (printable _); apply (Hquiet _ _ Hp); repeat constructor.
        eexists; reflexivity.
      * rewrite (handle_alive_not_a_dict data n Hnot) in Hp.
        apply (Hquiet [] (Raise AttributeError) Hp). constructor.
    + apply (Hquiet [] (Return tt)); [ | constructor ].
      now apply process_other_topic with (data := data).
Qed.

(** Whatever arrives, the handler sends at most two requests for it, all of
    them to the [sendMessage] URL of the configured bot, for the configured
    chat, and with one and the same text. *)
Theorem every_message_sends_at_most_two_requests
  (cfg : config) (now : datetime) (msg : mqtt_message) (n : nat) :
  let sent := posts (fst (on_message json_loads requests_post cfg now msg n)) in
  List.length sent <= 2
  /\ Forall (fun p => fst p = request_url cfg
                      /\ chat_id (snd p) = opt_str (TELEGRAM_CHAT_ID cfg)) sent
  /\ (forall p q, In p sent -> In q sent -> text (snd p) = text (snd q)).
Proof.
  intros sent. unfold sent.
  destruct (on_message_posts cfg now msg n)
    as [-> | (payload_text & items & message & ok & _ & _ & _ & _ & ->)].
  - repeat split; [ cbn; lia | constructor | intros p q [] ].
  - destruct (send_telegram_message_posts cfg message (Some "HTML") n) as [-> | ->];
      (repeat split; [ cbn; lia | repeat constructor | ]);
      intros p q Hp Hq; cbn [In] in Hp, Hq;
      repeat match goal with
             | H : _ \/ _ |- _ => destruct H
             | H : False |- _ => destruct H
             end; subst; reflexivity.
Qed.

(** A request goes out only for a dict that arrived on the status topic and
    selected one of the four notifying arms; what goes out is that arm's
    message. *)
Theorem requests_only_from_notifying_arms
  (cfg : config) (now : datetime) (msg : mqtt_message) (n : nat)
  (Hsent : posts (fst (on_message json_loads requests_post cfg now msg n)) <> []) :
  exists payload_text items message ok,
    decode_utf8 (payload msg) = Some payload_text
    /\ json_loads payload_text = Return (JObject items)
    /\ topic msg = MQTT_TOPIC_STATUS cfg
    /\ arm_notification
         (status_branch cfg (dict_get items "status" (JString "Unknown")))
         items (strftime now) = Some (message, ok)
    /\ delivered message (fst (on_message json_loads requests_post cfg now msg n)).
Proof.
  destruct (on_message_posts cfg now msg n)
    as [Hnone | (payload_text & items & message & ok & Hd & Hp & Ht & Harm & Hposts)];
    [ now elim Hsent | ].
  exists payload_text, items, message, ok. repeat split; trivial.
  assert (Hdel := send_telegram_message_delivers cfg message (Some "HTML") n).
  unfold delivered, sent_texts in *. now rewrite Hposts.
Qed.


(** ** The alive topic *)


(** ** Subscriptions *)

Lemma subscriptions_on_connect (cfg : config) (now : datetime) :
  subscriptions (on_connect cfg now 0)
  = ((MQTT_TOPIC_STATUS cfg, 1%Z)
     :: (if MONITOR_ALIVE cfg then [(MQTT_TOPIC_ALIVE cfg, 1%Z)] else []))%list.
Proof. unfold on_connect. cbn [Z.eqb]. now destruct (MONITOR_ALIVE cfg). Qed.

(** A refused connection (a result code other than 0) prints one line and
    subscribes to nothing.  An accepted one subscribes to the status topic
    first and, when alive messages are monitored, to the alive topic, each
    with quality of service 1, and to nothing else. *)
Theorem on_connect_subscribes_on_success_only
  (cfg : config) (now : datetime) (rc : Z) :
  (rc <> 0%Z ->
   on_connect cfg now rc = [Logged [T "❌ Connection failed with code "; V (JInt rc)]]
   /\ subscriptions (on_connect cfg now rc) = [])
  /\ (rc = 0%Z ->
      forall tp qos,
        In (tp, qos) (subscriptions (on_connect cfg now rc))
        <-> qos = 1%Z
            /\ (tp = MQTT_TOPIC_STATUS cfg
                \/ (tp = MQTT_TOPIC_ALIVE cfg /\ MONITOR_ALIVE cfg = true))).
Proof.
  split.
  - intros Hrc. unfold on_connect. apply Z.eqb_neq in Hrc. rewrite Hrc. now split.
  - intros -> tp qos. rewrite subscriptions_on_connect.
    destruct (MONITOR_ALIVE cfg); cbn [In]; split.
    + intros [[= <- <-] | [[= <- <-] | []]]; tauto.
    + intros [-> [-> | [-> _]]]; tauto.
    + intros [[= <- <-] | []]; tauto.
    + intros [-> [-> | [_ Hfalse]]]; [ tauto | discriminate Hfalse ].
Qed.

(** The handler and the subscriptions agree.  A message on a topic that
    [on_connect] did not subscribe to is only logged, whatever JSON value it
    carries: the two opening lines, no request, no error.  A dict on a
    subscribed topic gets at least one more line. *)
Theorem handler_matches_subscriptions
  (cfg : config) (now connected_at : datetime) (msg : mqtt_message)
  (payload_text : string) (data : json) (n : nat)
  (Hdecode : decode_utf8 (payload msg) = Some payload_text)
  (Hparse : json_loads payload_text = Return data) :
  let subscribed := map fst (subscriptions (on_connect cfg connected_at 0)) in
  let run := on_message json_loads requests_post cfg now msg n in
  (~ In (topic msg) subscribed ->
   run = (received_lines (topic msg) payload_text, Return tt))
  /\ (In (topic msg) subscribed ->
      (forall items, data = JObject items ->
        exists line rest,
          fst run
          = (received_lines (topic msg) payload_text ++ Printed line :: rest)%list)
      /\ ((forall items, data <> JObject items) ->
          run = ((received_lines (topic msg) payload_text
                  ++ [Printed (error_line payload_text AttributeError)])%list,
                 Return tt))).
Proof.
  intros subscribed run. unfold subscribed. rewrite subscriptions_on_connect.
  split.
  - intros Hnot.
    assert (Hs : topic msg <> MQTT_TOPIC_STATUS cfg).
    { intros Heq. apply Hnot. left. now rewrite Heq. }
    assert (Ha : (topic msg =? MQTT_TOPIC_ALIVE cfg) && MONITOR_ALIVE cfg = false).
    { destruct (MONITOR_ALIVE cfg); [ | now rewrite andb_false_r ].
      rewrite andb_true_r. apply String.eqb_neq. intros Heq.
      apply Hnot. right. left. now rewrite Heq. }
    assert (Hp := process_other_topic cfg (topic msg) payload_text (strftime now)
                    data n Hparse Hs Ha).
    unfold run. rewrite (on_message_returns _ _ _ _ _ _ Hdecode Hp).
    now rewrite app_nil_r.
  - intros Hin.
    assert (Hhandled : topic msg = MQTT_TOPIC_STATUS cfg
                       \/ (topic msg <> MQTT_TOPIC_STATUS cfg
                           /\ topic msg = MQTT_TOPIC_ALIVE cfg
                           /\ MONITOR_ALIVE cfg = true)).
    { destruct (string_dec (topic msg) (MQTT_TOPIC_STATUS cfg)) as [Hs | Hs]; [ now left | ].
      right. destruct Hin as [Heq | Hin]; [ now elim Hs | ].
      destruct (MONITOR_ALIVE cfg); [ | destruct Hin ].
      destruct Hin as [Heq | []]. now repeat split. }
    split.
    + intros items ->. unfold run.
      destruct Hhandled as [Hs | (Hs & Ha & Hm)].
      * assert (Hrun := on_message_status_dict cfg now msg payload_text items n
                          Hdecode Hparse Hs).
        cbv zeta in Hrun. rewrite Hrun.
        destruct (printable _); [ | cbn [fst]; eexists; eexists; reflexivity ].
        destruct (arm_notification _ _ _) as [[message ok] | ].
        -- destruct (snd _) as [sent | e]; [ | destruct (is_Exception e) ]; cbn [fst];
             rewrite <- app_assoc; eexists; eexists; reflexivity.
        -- cbn [fst]. rewrite <- app_assoc. eexists; eexists; reflexivity.
      * assert (Hp := process_alive_topic cfg (topic msg) payload_text (strftime now)
                        (JObject items) n Hparse Hs Ha Hm).
        rewrite handle_alive_dict in Hp. cbv zeta in Hp.
        destruct (printable _).
        -- rewrite (on_message_returns _ _ _ _ _ _ Hdecode Hp).
           eexists; eexists; reflexivity.
        -- rewrite (on_message_blocked _ _ _ _ _ Hdecode Hp).
           eexists; eexists; reflexivity.
    + intros Hnot. unfold run.
      assert (Hp : process json_loads requests_post cfg (topic msg) payload_text
                     (strftime now) n = ([], Raise AttributeError)).
      { destruct Hhandled as [Hs | (Hs & Ha & Hm)].
        - rewrite Hs, (process_status_topic cfg _ _ data n Hparse).
          now apply handle_status_not_a_dict.
        - rewrite (process_alive_topic cfg _ _ _ data n Hparse Hs Ha Hm).
          now apply handle_alive_not_a_dict. }
      now rewrite (on_message_handles _ _ _ _ _ _ _ Hdecode Hp eq_refl).
Qed.

(** ** Payloads that always decode *)

Lemma utf8_valid_ascii (bs : list byte) : Forall is_ascii_byte bs -> utf8_valid bs = true.
Proof.
  induction 1 as [ | b bs Hb _ IH ]; [ reflexivity | ].
  cbn [utf8_valid].
  assert (Hin : byte_in 0 127 b = true).
  { unfold byte_in, is_ascii_byte in *.
    apply andb_true_iff. split; apply N.leb_le; lia. }
  now rewrite Hin.
Qed.

(** A payload of ASCII bytes always decodes, to the text with those bytes:
    the handler prints its two opening lines with that text and never raises
    an [Exception] to its caller. *)
Theorem ascii_payload_is_always_handled
  (cfg : config) (now : datetime) (msg : mqtt_message) (n : nat)
  (Hascii : Forall is_ascii_byte (payload msg)) :
  let payload_text := string_of_list_byte (payload msg) in
  let run := on_message json_loads requests_post cfg now msg n in
  decode_utf8 (payload msg) = Some payload_text
  /\ bytes_of payload_text = payload msg
  /\ (exists rest, fst run = (received_lines (topic msg) payload_text ++ rest)%list)
  /\ (forall e, snd run = Raise e -> is_Exception e = false).
Proof.
  intros payload_text run.
  assert (Hdecode : decode_utf8 (payload msg) = Some payload_text).
  { unfold decode_utf8. now rewrite (utf8_valid_ascii _ Hascii). }
  split; [ exact Hdecode | ].
  split; [ apply list_byte_of_string_of_list_byte | ].
  unfold run. rewrite (on_message_decoded _ _ _ _ _ Hdecode).
  unfold try_except, on_error.
  destruct (process _ _ _ _ _ _ n) as [evs [[] | e']].
  - split; [ now eexists | discriminate ].
  - destruct (is_JSONDecodeError e'); [ split; [ now eexists | discriminate ] | ].
    destruct (is_Exception e') eqn:He; [ split; [ now eexists | discriminate ] | ].
    split; [ now eexists | ]. cbn [snd]. now intros e [= <-].
Qed.

(** ** Every path of [main] *)

Lemma main_run (cfg : config) (connect_result loop_result : option exn)
  (now : datetime) (n : nat) :
  main requests_post cfg connect_result loop_result now n
  = if py_eq_str (opt_str (TELEGRAM_BOT_TOKEN cfg)) "YOUR_BOT_TOKEN_HERE" then
      ((banner
        ++ [Printed [T "❌ ERROR: Please configure TELEGRAM_BOT_TOKEN"];
            Printed [T "   Get your bot token from @BotFather on Telegram"]])%list,
       Return tt)
    else if py_eq_str (opt_str (TELEGRAM_CHAT_ID cfg)) "YOUR_CHAT_ID_HERE" then
      ((banner
        ++ [Printed [T "❌ ERROR: Please configure TELEGRAM_CHAT_ID"];
            Printed [T "   Visit: https://api.telegram.org/bot<TOKEN>/getUpdates"]])%list,
       Return tt)
    else
      let started :=
        (banner ++ connecting_lines cfg
         ++ [Connected (MQTT_BROKER cfg) (MQTT_PORT cfg)])%list in
      match connect_result with
      | Some e =>
        if is_Exception e
        then ((started ++ [Printed [T "❌ Connection failed: "; X e]])%list, Return tt)
        else (started, Raise e)
      | None =>
        let looping := (started ++ monitoring_lines ++ [Looped])%list in
        match loop_result with
        | None => (looping, Return tt)
        | Some KeyboardInterrupt =>
          let delivery :=
            send_telegram_message requests_post cfg (shutdown_message now) (Some "HTML") n in
          match snd delivery with
          | Return _ =>
            ((looping ++ [Printed [T (LF ++ LF ++ "⏹️ Shutting down...")]]
              ++ fst delivery
              ++ [Disconnected; Printed [T "✅ Disconnected cleanly"]])%list,
             Return tt)
          | Raise e =>
            ((looping ++ [Printed [T (LF ++ LF ++ "⏹️ Shutting down...")]]
              ++ fst delivery)%list,
             Raise e)
          end
        | Some e => (looping, Raise e)
        end
      end.
Proof.
  unfold main.
  destruct (py_eq_str (opt_str (TELEGRAM_BOT_TOKEN cfg)) "YOUR_BOT_TOKEN_HERE");
    [ reflexivity | ].
  destruct (py_eq_str (opt_str (TELEGRAM_CHAT_ID cfg)) "YOUR_CHAT_ID_HERE");
    [ reflexivity | ].
  cbv zeta. fold (shutdown_message now).
  unfold bind, try_except, print, emit, ret, client_connect, client_loop_forever.
  cbn [posts List.length Nat.add app].
  destruct connect_result as [e | ].
  - destruct (is_Exception e); reflexivity.
  - cbn [posts List.length Nat.add app].
    destruct loop_result as [e | ]; [ | reflexivity ].
    destruct e; try reflexivity.
    destruct (send_telegram_message requests_post cfg (shutdown_message now) (Some "HTML") _)
      as [evs [sent | e]]; cbn [fst snd]; unfold banner, connecting_lines, monitoring_lines;
      cbn [app]; rewrite <- ?app_assoc; reflexivity.
Qed.

Lemma not_placeholder (o : option string) (s : string) :
  o <> Some s -> py_eq_str (opt_str o) s = false.
Proof.
  intros Hne. destruct (py_eq_str (opt_str o) s) eqn:E; [ | reflexivity ].
  now apply opt_str_is in E.
Qed.

(** When [client.connect] raises an [Exception], [main] prints the failure
    and returns: it never starts the loop and sends nothing. *)
Theorem main_returns_when_connect_fails
  (cfg : config) (loop_result : option exn) (now : datetime) (n : nat) (e : exn)
  (Htoken : TELEGRAM_BOT_TOKEN cfg <> Some "YOUR_BOT_TOKEN_HERE")
  (Hchat : TELEGRAM_CHAT_ID cfg <> Some "YOUR_CHAT_ID_HERE")
  (Hfail : is_Exception e = true) :
  let run := main requests_post cfg (Some e) loop_result now n in
  run = ((banner ++ connecting_lines cfg
          ++ [Connected (MQTT_BROKER cfg) (MQTT_PORT cfg);
              Printed [T "❌ Connection failed: "; X e]])%list,
         Return tt)
  /\ ~ In Looped (fst run)
  /\ posts (fst run) = [].
Proof.
  intros run.
  assert (Hrun : run = ((banner ++ connecting_lines cfg
          ++ [Connected (MQTT_BROKER cfg) (MQTT_PORT cfg);
              Printed [T "❌ Connection failed: "; X e]])%list,
         Return tt)).
  { unfold run. rewrite main_run, (not_placeholder _ _ Htoken), (not_placeholder _ _ Hchat).
    cbv zeta. rewrite Hfail. now rewrite <- !app_assoc. }
  split; [ exact Hrun | ]. rewrite Hrun. split; [ | reflexivity ].
  cbn. intuition discriminate.
Qed.

(** Interrupted in its loop, [main] prints that it shuts down and delivers
    the shutdown message.  Whether that delivery returned [True] or [False]
    makes no difference: [main] disconnects, prints its last line and
    returns.  Only an exception out of the delivery keeps it from
    disconnecting. *)
Theorem main_shuts_down_on_interrupt
  (cfg : config) (now : datetime) (n : nat)
  (Htoken : TELEGRAM_BOT_TOKEN cfg <> Some "YOUR_BOT_TOKEN_HERE")
  (Hchat : TELEGRAM_CHAT_ID cfg <> Some "YOUR_CHAT_ID_HERE") :
  let run := main requests_post cfg None (Some KeyboardInterrupt) now n in
  let delivery :=
    send_telegram_message requests_post cfg (shutdown_message now) (Some "HTML") n in
  let interrupted :=
    (banner ++ connecting_lines cfg
     ++ [Connected (MQTT_BROKER cfg) (MQTT_PORT cfg)]
     ++ monitoring_lines
     ++ [Looped; Printed [T (LF ++ LF ++ "⏹️ Shutting down...")]])%list in
  delivered (shutdown_message now) (fst run)
  /\ (forall sent,
        snd delivery = Return sent ->
        run = ((interrupted ++ fst delivery
                ++ [Disconnected; Printed [T "✅ Disconnected cleanly"]])%list,
               Return tt))
  /\ (forall e,
        snd delivery = Raise e ->
        run = ((interrupted ++ fst delivery)%list, Raise e)).
Proof.
  intros run delivery interrupted.
  assert (Hrun := main_run cfg None (Some KeyboardInterrupt) now n).
  rewrite (not_placeholder _ _ Htoken), (not_placeholder _ _ Hchat) in Hrun.
  cbv zeta in Hrun. fold run delivery in Hrun.
  assert (Hdel := send_telegram_message_delivers cfg (shutdown_message now) (Some "HTML") n).
  fold delivery in Hdel.
  assert (Hposts : posts (fst run) = posts (fst delivery)).
  { rewrite Hrun. destruct (snd delivery); cbn [fst];
      rewrite !posts_app; cbn [posts banner connecting_lines monitoring_lines app];
      now rewrite ?app_nil_r. }
  split; [ unfold delivered, sent_texts in *; now rewrite Hposts | ].
  split.
  - intros sent Hsent. rewrite Hrun, Hsent. unfold interrupted.
    now rewrite <- !app_assoc.
  - intros e He. rewrite Hrun, He. unfold interrupted.
    now rewrite <- !app_assoc.
Qed.

(** [main] sends a Telegram message, and disconnects, in one case only: the
    credentials passed the check, the connection was made, and the loop was
    interrupted from the keyboard. *)
Theorem main_notifies_only_on_interrupt
  (cfg : config) (connect_result loop_result : option exn) (now : datetime) (n : nat)
  (Hacted :
     posts (fst (main requests_post cfg connect_result loop_result now n)) <> []
     \/ In Disconnected (fst (main requests_post cfg connect_result loop_result now n))) :
  TELEGRAM_BOT_TOKEN cfg <> Some "YOUR_BOT_TOKEN_HERE"
  /\ TELEGRAM_CHAT_ID cfg <> Some "YOUR_CHAT_ID_HERE"
  /\ connect_result = None
  /\ loop_result = Some KeyboardInterrupt.
Proof.
  rewrite main_run in Hacted.
  assert (Hquiet : forall evs,
             Forall (fun ev => posts [ev] = [] /\ ev <> Disconnected) evs ->
             ~ (posts evs <> [] \/ In Disconnected evs)).
  { intros evs Hevs.
    assert (Hnone : posts evs = []).
    { induction Hevs as [ | ev evs [Hev _] _ IH ]; [ reflexivity | ].
      change (ev :: evs) with ([ev] ++ evs)%list. now rewrite posts_app, Hev, IH. }
    intros [Hp | Hd]; [ now apply Hp | ].
    rewrite Forall_forall in Hevs. now destruct (Hevs _ Hd). }
  destruct (py_eq_str (opt_str (TELEGRAM_BOT_TOKEN cfg)) "YOUR_BOT_TOKEN_HERE") eqn:Et.
  { exfalso. revert Hacted. apply Hquiet. repeat constructor; discriminate. }
  destruct (py_eq_str (opt_str (TELEGRAM_CHAT_ID cfg)) "YOUR_CHAT_ID_HERE") eqn:Ec.
  { exfalso. revert Hacted. apply Hquiet. repeat constructor; discriminate. }
  assert (Htoken : TELEGRAM_BOT_TOKEN cfg <> Some "YOUR_BOT_TOKEN_HERE").
  { intros H. apply opt_str_is in H. congruence. }
  assert (Hchat : TELEGRAM_CHAT_ID cfg <> Some "YOUR_CHAT_ID_HERE").
  { intros H. apply opt_str_is in H. congruence. }
  cbv zeta in Hacted.
  destruct connect_result as [e | ].
  { exfalso. revert Hacted. destruct (is_Exception e); cbn [fst];
      apply Hquiet; repeat constructor; discriminate. }
  destruct loop_result as [e | ].
  - destruct e; try (exfalso; revert Hacted; cbn [fst]; apply Hquiet;
                     repeat constructor; discriminate).
    now repeat split.
  - exfalso. revert Hacted. cbn [fst]. apply Hquiet. repeat constructor; discriminate.
Qed.

(** ** The result of a delivery *)

(** [send_telegram_message] returns [True] exactly when the last request it
    sent was answered without an error status; after a failed last request
    it returns [False] or raises. *)
Theorem delivery_is_true_iff_last_request_succeeded
  (cfg : config) (message : fstring) (mode : option string) (n : nat) :
  let run := send_telegram_message requests_post cfg message mode n in
  let sent := posts (fst run) in
  let last_index := List.length sent - 1 in
  snd run = Return true
  <-> exists url body,
      nth_error sent last_index = Some (url, body)
      /\ attempt_failure (requests_post (last_index + n) url body) = None.
Proof.
  intros run sent last_index. unfold last_index, sent, run.
  assert (Hrun := send_telegram_message_run cfg message mode n). cbv zeta in Hrun.
  rewrite Hrun.
  destruct (attempt_failure (requests_post n _ _)) as [e | ] eqn:Hfirst.
  - destruct (is_RequestException e).
    + destruct (truthy mode); cbn [fst snd posts List.length Nat.sub nth_error Nat.add].
      * destruct (attempt_failure (requests_post (S n) _ _)) as [e' | ] eqn:Hsecond.
        -- split; [ discriminate | ].
           intros (url & body & [= <- <-] & Hok). congruence.
        -- split; [ | reflexivity ]. intros _. now eexists; eexists.
      * split; [ discriminate | ].
        intros (url & body & [= <- <-] & Hok). congruence.
    + cbn [fst snd posts List.length Nat.sub nth_error Nat.add].
      split; [ discriminate | ].
      intros (url & body & [= <- <-] & Hok). congruence.
  - cbn [fst snd posts List.length Nat.sub nth_error Nat.add].
    split; [ | reflexivity ]. intros _. now eexists; eexists.
Qed.

(** ** What the online flag changes *)

Lemma status_branch_without_online (cfg cfg' : config) (status : json) :
  status <> JString "online" ->
  status_branch cfg' status = status_branch cfg status.
Proof.
  intros Hne. apply py_eq_str_false in Hne. unfold status_branch. now rewrite Hne.
Qed.

(** [NOTIFY_ONLINE] matters to the online status only: for a message whose
    status is not ["online"], the handler does the same with the flag set
    either way, event for event. *)
Theorem online_flag_changes_online_only
  (cfg : config) (b : bool) (now : datetime) (msg : mqtt_message) (n : nat)
  (Hother : forall payload_text items,
      decode_utf8 (payload msg) = Some payload_text ->
      json_loads payload_text = Return (JObject items) ->
      dict_get items "status" (JString "Unknown") <> JString "online") :
  on_message json_loads requests_post (set_notify_online cfg b) now msg n
  = on_message json_loads requests_post cfg now msg n.
Proof.
  destruct (decode_utf8 (payload msg)) as [payload_text | ] eqn:Hdecode;
    [ | now rewrite !on_message_undecodable ].
  rewrite !(on_message_decoded _ _ _ _ _ Hdecode).
  assert (Hp : process json_loads requests_post (set_notify_online cfg b) (topic msg)
                 payload_text (strftime now) n
               = process json_loads requests_post cfg (topic msg)
                   payload_text (strftime now) n);
    [ | unfold try_except; now rewrite Hp ].
  destruct (json_loads payload_text) as [data | e] eqn:Hparse;
    [ | now rewrite !(process_decoder_error _ _ _ _ _ e Hparse) ].
  destruct (string_dec (topic msg) (MQTT_TOPIC_STATUS cfg)) as [Hs | Hs].
  - rewrite Hs.
    rewrite (process_status_topic cfg _ _ data n Hparse).
    change (MQTT_TOPIC_STATUS cfg) with (MQTT_TOPIC_STATUS (set_notify_online cfg b)).
    rewrite (process_status_topic (set_notify_online cfg b) _ _ data n Hparse).
    destruct data; try reflexivity.
    rewrite !handle_status_dict. cbv zeta.
    rewrite (status_branch_without_online cfg (set_notify_online cfg b) _
               (Hother _ _ eq_refl Hparse)).
    reflexivity.
  - destruct ((topic msg =? MQTT_TOPIC_ALIVE cfg) && MONITOR_ALIVE cfg) eqn:Ha.
    + apply andb_true_iff in Ha. destruct Ha as [Ha Hm]. apply String.eqb_eq in Ha.
      rewrite (process_alive_topic cfg _ _ _ data n Hparse Hs Ha Hm).
      now rewrite (process_alive_topic (set_notify_online cfg b) _ _ _ data n Hparse Hs Ha Hm).
    + rewrite (process_other_topic cfg _ _ _ data n Hparse Hs Ha).
      now rewrite (process_other_topic (set_notify_online cfg b) _ _ _ data n Hparse Hs Ha).
Qed.

End Properties.

(** * The properties at work *)

Lemma formatted_delivery_when_down :
  truthy (Some "HTML") = true
  /\ posts (fst (send_telegram_message post_down configured
                   (format_online_message (JString "x") (JString "2024-05-17 08:30:00"))
                   (Some "HTML") 0))
     = [(request_url configured,
         request_body configured
           (format_online_message (JString "x") (JString "2024-05-17 08:30:00"))
           (Some "HTML"));
        (request_url configured,
         request_body configured
           (format_online_message (JString "x") (JString "2024-05-17 08:30:00"))
           None)]
  /\ snd (send_telegram_message post_down configured
            (format_online_message (JString "x") (JString "2024-05-17 08:30:00"))
            (Some "HTML") 0)
     = Return false.
Proof.
  split; [ reflexivity | ].
  destruct (formatted_delivery_retries_once post_down configured
              (format_online_message (JString "x") (JString "2024-05-17 08:30:00"))
              (Some "HTML") 0 eq_refl) as (_ & _ & Hretry).
  destruct (Hretry (RequestException "ConnectionError") eq_refl eq_refl)
    as (Hposts & _ & _ & _ & _ & _ & _ & Hfalse).
  split; [ exact Hposts | apply Hfalse; discriminate ].
Defined.







Lemma not_json_is_dropped :
  decode_utf8 (bytes_of "not-json") = Some "not-json"
  /\ json_parse "not-json" = None
  /\ on_message json_decoder post_ok configured morning
       {| topic := "any/topic"; payload := bytes_of "not-json" |} 0
     = ((received_lines "any/topic" "not-json"
         ++ [Printed [T "⚠️ Failed to parse JSON payload: "; V (JString "not-json")]])%list,
        Return tt).
Proof.
  split; [ reflexivity | ]. split; [ reflexivity | ].
  exact (proj1 (malformed_payload_is_dropped json_decoder post_ok configured morning
                  {| topic := "any/topic"; payload := bytes_of "not-json" |}
                  "not-json" 0 eq_refl eq_refl)).
Defined.

Lemma heartbeat_sends_nothing :
  decode_utf8 (payload (alive_message heartbeat_text)) = Some heartbeat_text
  /\ json_parse heartbeat_text
     = Some (JObject [("device_id", JString "y"); ("rtc_time", JString "12:00:00");
                      ("uptime_sec", JInt 3725)])
  /\ posts (fst (on_message json_decoder post_ok configured morning
                   (alive_message heartbeat_text) 0)) = []
  /\ snd (on_message json_decoder post_ok configured morning
            (alive_message heartbeat_text) 0) = Return tt.
Proof.
  split; [ reflexivity | ]. split; [ reflexivity | ].
  assert (Hsilent := silent_events_send_nothing json_decoder post_ok configured morning
                       (alive_message heartbeat_text) heartbeat_text 0 eq_refl).
  destruct Hsilent as (_ & Hposts & Hret).
  - right.
    exists [("device_id", JString "y"); ("rtc_time", JString "12:00:00");
            ("uptime_sec", JInt 3725)].
    split; [ reflexivity | ]. right.
    split; [ discriminate | split; reflexivity ].
  - split; [ exact Hposts | exact Hret ].
Defined.


Lemma array_payload_is_swallowed :
  decode_utf8 (payload (status_message "[1, 2]")) = Some "[1, 2]"
  /\ json_parse "[1, 2]" = Some (JArray [JInt 1; JInt 2])
  /\ on_message json_decoder post_ok configured morning (status_message "[1, 2]") 0
     = ((received_lines "devices/IoT_device_365/status" "[1, 2]"
         ++ [Printed [T "❌ Error processing message: "; X AttributeError]])%list,
        Return tt).
Proof.
  split; [ reflexivity | ]. split; [ reflexivity | ].
  refine (proj1 (non_dict_json_is_swallowed json_decoder post_ok configured morning
                   (status_message "[1, 2]") "[1, 2]" (JArray [JInt 1; JInt 2]) 0
                   eq_refl eq_refl _ (or_introl eq_refl))).
  discriminate.
Defined.

Lemma interrupted_delivery_is_no_exception :
  decode_utf8 (payload (status_message offline_text)) = Some offline_text
  /\ snd (on_message json_decoder (fun _ _ _ => Failed KeyboardInterrupt) configured morning
            (status_message offline_text) 0) = Raise KeyboardInterrupt
  /\ is_Exception KeyboardInterrupt = false.
Proof.
  split; [ reflexivity | ]. split; [ reflexivity | ].
  exact (on_message_lets_no_exception_escape json_decoder
           (fun _ _ _ => Failed KeyboardInterrupt) configured morning
           (status_message offline_text) offline_text 0 KeyboardInterrupt
           eq_refl eq_refl).
Defined.

Lemma placeholder_token_stops_main :
  TELEGRAM_BOT_TOKEN (settings (Some "YOUR_BOT_TOKEN_HERE") (Some "777000") true)
  = Some "YOUR_BOT_TOKEN_HERE"
  /\ posts (fst (main post_ok (settings (Some "YOUR_BOT_TOKEN_HERE") (Some "777000") true)
                   None None morning 0)) = []
  /\ ~ In (Connected "broker.hivemq.com" 1883)
         (fst (main post_ok (settings (Some "YOUR_BOT_TOKEN_HERE") (Some "777000") true)
                 None None morning 0)).
Proof.
  split; [ reflexivity | ].
  destruct (main_stops_on_placeholder post_ok
              (settings (Some "YOUR_BOT_TOKEN_HERE") (Some "777000") true)
              None None morning 0 (or_introl eq_refl)) as [Hlogs _].
  split.
  - now apply posts_of_logs.
  - intros Hin. rewrite Forall_forall in Hlogs.
    destruct (Hlogs _ Hin) as [line Hline]. discriminate Hline.
Defined.

Lemma plain_delivery_when_down :
  truthy None = false
  /\ send_telegram_message post_down configured [T "plain text"] None 0
     = ([Posted (request_url configured) (request_body configured [T "plain text"] None);
         Printed [T "Failed to send Telegram message: ";
                  X (RequestException "ConnectionError")]],
        Return false).
Proof.
  split; [ reflexivity | ].
  destruct (unformatted_delivery_is_single_attempt post_down configured
              [T "plain text"] None 0 eq_refl) as (_ & _ & _ & _ & Hfail).
  exact (Hfail (RequestException "ConnectionError") eq_refl eq_refl).
Defined.

Lemma type_error_goes_up :
  send_telegram_message (fun _ _ _ => Failed (OtherException "TypeError")) configured
    [T "text"] (Some "HTML") 0
  = ([Posted (request_url configured) (request_body configured [T "text"] (Some "HTML"))],
     Raise (OtherException "TypeError")).
Proof.
  exact (unexpected_error_is_not_retried
           (fun _ _ _ => Failed (OtherException "TypeError")) configured
           [T "text"] (Some "HTML") 0 (OtherException "TypeError") eq_refl eq_refl).
Defined.

Lemma offline_request_comes_from_its_arm :
  posts (fst (on_message json_decoder post_ok configured morning
                (status_message offline_text) 0)) <> []
  /\ exists message,
      delivered message
        (fst (on_message json_decoder post_ok configured morning
                (status_message offline_text) 0)).
Proof.
  assert (Hsent : posts (fst (on_message json_decoder post_ok configured morning
                                (status_message offline_text) 0)) <> [])
    by (vm_compute; discriminate).
  split; [ exact Hsent | ].
  destruct (requests_only_from_notifying_arms json_decoder post_ok configured morning
              (status_message offline_text) 0 Hsent)
    as (payload_text & items & message & ok & _ & _ & _ & _ & Hdelivered).
  exists message. exact Hdelivered.
Defined.



Lemma foreign_topic_is_only_logged :
  json_parse "[1, 2]" = Some (JArray [JInt 1; JInt 2])
  /\ on_message json_decoder post_ok configured morning
       {| topic := "devices/other/status"; payload := bytes_of "[1, 2]" |} 0
     = (received_lines "devices/other/status" "[1, 2]", Return tt).
Proof.
  split; [ reflexivity | ].
  destruct (handler_matches_subscriptions json_decoder post_ok configured morning morning
              {| topic := "devices/other/status"; payload := bytes_of "[1, 2]" |}
              "[1, 2]" (JArray [JInt 1; JInt 2]) 0 eq_refl eq_refl) as [Hforeign _].
  apply Hforeign. cbn. intuition discriminate.
Defined.

Lemma ascii_text_is_handled :
  Forall is_ascii_byte (bytes_of "not-json")
  /\ decode_utf8 (bytes_of "not-json") = Some "not-json"
  /\ forall e,
      snd (on_message json_decoder post_ok configured morning
             {| topic := "t"; payload := bytes_of "not-json" |} 0) = Raise e ->
      is_Exception e = false.
Proof.
  assert (Hascii : Forall is_ascii_byte (bytes_of "not-json"))
    by (repeat constructor).
  split; [ exact Hascii | ].
  destruct (ascii_payload_is_always_handled json_decoder post_ok configured morning
              {| topic := "t"; payload := bytes_of "not-json" |} 0 Hascii)
    as (Hdecode & _ & _ & Hsafe).
  split; [ exact Hdecode | exact Hsafe ].
Defined.

Lemma refused_connection_ends_main :
  is_Exception (OtherException "ConnectionRefusedError") = true
  /\ snd (main post_ok configured (Some (OtherException "ConnectionRefusedError"))
            (Some KeyboardInterrupt) morning 0) = Return tt
  /\ ~ In Looped
         (fst (main post_ok configured (Some (OtherException "ConnectionRefusedError"))
                 (Some KeyboardInterrupt) morning 0)).
Proof.
  split; [ reflexivity | ].
  destruct (main_returns_when_connect_fails post_ok configured (Some KeyboardInterrupt)
              morning 0 (OtherException "ConnectionRefusedError"))
    as (Hrun & Hloop & _).
  - discriminate.
  - discriminate.
  - reflexivity.
  - split; [ now rewrite Hrun | exact Hloop ].
Defined.

Lemma interrupt_shuts_down_even_when_down :
  TELEGRAM_BOT_TOKEN configured <> Some "YOUR_BOT_TOKEN_HERE"
  /\ delivered (shutdown_message morning)
       (fst (main post_down configured None (Some KeyboardInterrupt) morning 0))
  /\ In Disconnected (fst (main post_down configured None (Some KeyboardInterrupt) morning 0))
  /\ snd (main post_down configured None (Some KeyboardInterrupt) morning 0) = Return tt.
Proof.
  split; [ discriminate | ].
  destruct (main_shuts_down_on_interrupt post_down configured morning 0)
    as (Hdelivered & Hreturned & _).
  - discriminate.
  - discriminate.
  - split; [ exact Hdelivered | ].
    rewrite (Hreturned false eq_refl).
    split; [ | reflexivity ].
    cbn. tauto.
Defined.

Lemma a_sent_message_means_interrupt :
  posts (fst (main post_ok configured None (Some KeyboardInterrupt) morning 0)) <> []
  /\ TELEGRAM_BOT_TOKEN configured <> Some "YOUR_BOT_TOKEN_HERE"
  /\ TELEGRAM_CHAT_ID configured <> Some "YOUR_CHAT_ID_HERE".
Proof.
  assert (Hsent : posts (fst (main post_ok configured None (Some KeyboardInterrupt)
                                morning 0)) <> [])
    by (vm_compute; discriminate).
  split; [ exact Hsent | ].
  destruct (main_notifies_only_on_interrupt post_ok configured None
              (Some KeyboardInterrupt) morning 0 (or_introl Hsent))
    as (Htoken & Hchat & _ & _).
  split; [ exact Htoken | exact Hchat ].
Defined.

Lemma bogus_status_ignores_the_flag :
  json_parse bogus_text
  = Some (JObject [("device_id", JString "x"); ("status", JString "Bogus")])
  /\ on_message json_decoder post_ok (set_notify_online configured false) morning
       (status_message bogus_text) 0
     = on_message json_decoder post_ok configured morning (status_message bogus_text) 0.
Proof.
  split; [ reflexivity | ].
  apply online_flag_changes_online_only.
  intros payload_text items Hdecode Hparse.
  vm_compute in Hdecode. injection Hdecode as <-.
  vm_compute in Hparse. injection Hparse as <-.
  discriminate.
Defined.

Lemma recursion_error_is_a_processing_error :
  decode_utf8 (bytes_of "[[[[") = Some "[[[["
  /\ on_message exhausted_decoder post_ok configured morning (status_message "[[[[") 0
     = ((received_lines "devices/IoT_device_365/status" "[[[["
         ++ [Printed [T "❌ Error processing message: ";
                      X (OtherException "RecursionError")]])%list,
        Return tt).
Proof.
  split; [ reflexivity | ].
  exact (decoder_limit_is_a_processing_error exhausted_decoder post_ok configured morning
           (status_message "[[[[") "[[[[" 0 (OtherException "RecursionError")
           eq_refl eq_refl eq_refl eq_refl).
Defined.
